(** * Ag detection by muon spectroscopy: the notebook's data preparation

    A shallow embedding of the code cells of
    [course_2.0/03_DNN_practical.ipynb]: loading the dataframe, deriving
    the training arrays, balancing the two classes with NumPy's global
    random state, and the Keras model and callback the notebook
    configures.  Each definition carries the Python it embeds. *)

From Stdlib Require Import ZArith Floats.PrimFloat.
From stdpp Require Import base tactics option list strings gmap.

(** Decimal literals such as [0.001] are rounded to binary64, as in Python. *)
#[local] Set Warnings "-inexact-float".

(** ** Python exceptions and fallible results *)

Inductive exn : Type :=
| ImportError
| FileNotFoundError
| KeyError
| ValueError
| IndexError.

Inductive result (A : Type) : Type :=
| Ok (a : A)
| Raise (e : exn).
Arguments Ok {A} a.
Arguments Raise {A} e.

Definition bind {A B : Type} (c : result A) (k : A -> result B) : result B :=
  match c with
  | Ok a => k a
  | Raise e => Raise e
  end.

Notation "'let*' x ':=' c 'in' k" := (bind c (fun x => k))
  (at level 10, x pattern, c at level 100, k at level 200).

(** [try: body except: handler], the bare [except] of the Colab cell. *)
Definition try_except {A : Type} (body : result A) (handler : result A) : result A :=
  match body with
  | Ok a => Ok a
  | Raise _ => handler
  end.

(** ** The NumPy operations the notebook calls *)

Module Np.

(** An array of spectra is kept as its rows. *)
Definition uniform {A : Type} (rows : list (list A)) : bool :=
  match rows with
  | [] => true
  | r :: rs => forallb (fun r' => length r' =? length r) rs
  end.

(** [np.array(rows)].  Rows of one length give a 2-D array.  On ragged
    rows NumPy from 1.24 raises ValueError and older releases build an
    array of row objects; [rejects_ragged] selects between the two. *)
Definition array {A : Type} (rejects_ragged : bool) (rows : list (list A))
  : result (list (list A)) :=
  if uniform rows then Ok rows
  else if rejects_ragged then Raise ValueError else Ok rows.

(** [a.shape] of an array of rows: the second axis exists only when
    the rows agree in length. *)
Definition shape {A : Type} (a : list (list A)) : list nat :=
  match a with
  | [] => [0]
  | r :: _ => if uniform a then [length a; length r] else [length a]
  end.

(** [a[:n]] *)
Definition slice_to {A : Type} (n : nat) (a : list A) : list A := take n a.

(** [a.astype(int)] on an array of booleans *)
Definition astype_int (a : list bool) : list Z := map Z.b2z a.

(** [np.where(mask)[0]]: the positions holding True, ascending. *)
Fixpoint nonzero_from (i : nat) (mask : list bool) : list nat :=
  match mask with
  | [] => []
  | b :: mask' =>
      if b then i :: nonzero_from (S i) mask' else nonzero_from (S i) mask'
  end.
Definition where_ (mask : list bool) : list nat := nonzero_from 0 mask.

(** [a == v], elementwise *)
Definition eq_scalar (a : list Z) (v : Z) : list bool := map (fun y => Z.eqb y v) a.

(** [a[idx]] with an integer index array: IndexError out of bounds. *)
Fixpoint take_idx {A : Type} (a : list A) (idx : list nat) : result (list A) :=
  match idx with
  | [] => Ok []
  | j :: idx' =>
      match a !! j with
      | None => Raise IndexError
      | Some v => let* vs := take_idx a idx' in Ok (v :: vs)
      end
  end.

(** [np.concatenate((a, b))] *)
Definition concatenate {A : Type} (a b : list A) : list A := a ++ b.

End Np.

(** ** The dataframe *)

(** One row of the pickled table: the [Elements] and [Spectra] columns. *)
Record Sample : Type := mkSample {
  Elements : list string;
  Spectra : list float
}.

(** A dataframe with the default range index, as its rows. *)
Abbreviation DataFrame := (list Sample).

(** [x in elements] on a Python list of strings *)
Definition py_in (x : string) (elements : list string) : bool :=
  existsb (String.eqb x) elements.

(** The label of one sample: 1 when "Ag" is among its elements, else 0. *)
Definition label_of (sample : Sample) : Z :=
  if decide ("Ag"%string ∈ Elements sample) then 1%Z else 0%Z.

(** ** Extract training data (the cell under "Extract training data")

<<
train_x = np.array(df['Spectra'].to_list())[:50000]
train_y = np.array(['Ag' in elements for elements in df['Elements']]).astype(int)[:50000]
>> *)

(** The row limit [50000] of both slices. *)
Definition n_train : nat := Z.to_nat 50000.
Arguments n_train : simpl never.

Section Extract.

Variable rejects_ragged : bool.

Definition train_x_of (df : DataFrame) : result (list (list float)) :=
  let* a := Np.array rejects_ragged (map Spectra df) in
  Ok (Np.slice_to n_train a).

Definition train_y_of (df : DataFrame) : list Z :=
  Np.slice_to n_train
    (Np.astype_int (map (fun elements => py_in "Ag" elements) (map Elements df))).

Definition extract_training_data (df : DataFrame)
  : result (list (list float) * list Z) :=
  let* train_x := train_x_of df in
  Ok (train_x, train_y_of df).

End Extract.

(** ** NumPy's global random state

    [np.random.seed], [np.random.choice] and [np.random.shuffle] act on
    one hidden generator.  The generator itself (a Mersenne Twister) is
    kept abstract: a state type, the state a seed produces, and the
    bounded draw [rk_interval max], which returns a value in [0, max]. *)

Class RandomState (RS : Type) : Type := {
  rk_seed : Z -> RS;
  rk_interval : nat -> RS -> nat * RS;
  rk_interval_le : forall (max : nat) (st : RS), (rk_interval max st).1 <= max
}.

Module Random.
Section Random.

Context {RS : Type} `{RandomState RS}.

(** [np.random.seed(n)]: the previous state is discarded. *)
Definition seed (n : Z) (st : RS) : RS := rk_seed n.

(** [randint(0, high, size)] with [high > 0]: [size] draws below [high]. *)
Fixpoint randint (high : nat) (size : nat) (st : RS) : list nat * RS :=
  match size with
  | 0 => ([], st)
  | S size' =>
      let (j, st1) := rk_interval (high - 1) st in
      let (js, st2) := randint high size' st1 in
      (j :: js, st2)
  end.

(** [np.random.choice(a, size)], uniform and with replacement:
<<
pop_size = a.shape[0]
if pop_size == 0 and np.prod(size) != 0:
    raise ValueError("'a' cannot be empty unless no samples are taken")
idx = self.randint(0, pop_size, size=size)
return a[idx]
>> *)
Definition choice {A : Type} (a : list A) (size : nat) (st : RS)
  : result (list A) * RS :=
  let pop_size := length a in
  if (pop_size =? 0) && negb (size =? 0) then (Raise ValueError, st)
  else
    let (idx, st1) := randint pop_size size st in
    (Np.take_idx a idx, st1).

(** [x[i], x[j] = x[j], x[i]] *)
Definition swap {A : Type} (i j : nat) (x : list A) : list A :=
  match x !! i, x !! j with
  | Some xi, Some xj => <[i := xj]> (<[j := xi]> x)
  | _, _ => x
  end.

(** The loop of [np.random.shuffle]:
<<
for i in reversed(range(1, n)):
    j = rk_interval(i, state)
    x[i], x[j] = x[j], x[i]
>>
    [shuffle_loop i] runs the iterations [i, i-1, ..., 1]. *)
Fixpoint shuffle_loop {A : Type} (i : nat) (x : list A) (st : RS) : list A * RS :=
  match i with
  | 0 => (x, st)
  | S i' =>
      let (j, st1) := rk_interval i st in
      shuffle_loop i' (swap i j x) st1
  end.

Definition shuffle {A : Type} (x : list A) (st : RS) : list A * RS :=
  shuffle_loop (length x - 1) x st.

End Random.
End Random.

(** ** Class balancing (the cell under "Class imbalance")

<<
id_no_Ag = np.where(train_y == 0)[0]
id_with_Ag = np.where(train_y == 1)[0]
id_no_Ag_downsample = np.random.choice(id_no_Ag, len(id_with_Ag))
id_downsample = np.concatenate((id_with_Ag, id_no_Ag_downsample))
np.random.shuffle(id_downsample)
train_x_balanced = train_x[id_downsample]
train_y_balanced = train_y[id_downsample]
>> *)

Record Balanced : Type := mkBalanced {
  id_no_Ag_downsample : list nat;
  id_downsample : list nat;
  train_x_balanced : list (list float);
  train_y_balanced : list Z
}.

Definition id_no_Ag (train_y : list Z) : list nat := Np.where_ (Np.eq_scalar train_y 0).
Definition id_with_Ag (train_y : list Z) : list nat := Np.where_ (Np.eq_scalar train_y 1).

(** A cell that may raise and may advance the random state; a raised
    exception leaves the state as it was when raised. *)
Definition cell (RS A : Type) : Type := RS -> result A * RS.

Definition cbind {RS A B : Type} (c : cell RS A) (k : A -> cell RS B) : cell RS B :=
  fun st =>
    match c st with
    | (Ok a, st1) => k a st1
    | (Raise e, st1) => (Raise e, st1)
    end.

Definition pure {RS A : Type} (r : result A) : cell RS A := fun st => (r, st).

Definition total {RS A : Type} (f : RS -> A * RS) : cell RS A :=
  fun st => let (a, st1) := f st in (Ok a, st1).

Notation "'run*' x ':=' c 'in' k" := (cbind c (fun x => k))
  (at level 10, x pattern, c at level 100, k at level 200).

Section Balance.

Context {RS : Type} `{RandomState RS}.

Definition balance_classes (train_x : list (list float)) (train_y : list Z)
  : cell RS Balanced :=
  run* drawn := Random.choice (id_no_Ag train_y) (length (id_with_Ag train_y)) in
  run* ids := total (Random.shuffle (Np.concatenate (id_with_Ag train_y) drawn)) in
  run* bx := pure (Np.take_idx train_x ids) in
  run* by_ := pure (Np.take_idx train_y ids) in
  pure (Ok (mkBalanced drawn ids bx by_)).

End Balance.

(** What a run of the cell yields whenever the draw is possible. *)
Definition balanced_run (train_x : list (list float)) (train_y : list Z)
    (b : Balanced) : Prop :=
  length (id_no_Ag_downsample b) = length (id_with_Ag train_y) /\
  (forall j, j ∈ id_no_Ag_downsample b -> j ∈ id_no_Ag train_y) /\
  id_downsample b ≡ₚ Np.concatenate (id_with_Ag train_y) (id_no_Ag_downsample b) /\
  Np.take_idx train_x (id_downsample b) = Ok (train_x_balanced b) /\
  Np.take_idx train_y (id_downsample b) = Ok (train_y_balanced b).

(** ** The cells before the balancing step *)

(** [series[0]] on a column with the default range index *)
Definition series_loc {A : Type} (series : list A) (label : nat) : result A :=
  match series !! label with
  | Some v => Ok v
  | None => Raise KeyError
  end.

Definition colab_data_path : string := "/content/sciml-workshop-data/".
Definition local_data_path : string := "./sciml-workshop-data/".
Definition data_file : string := "muon-data/ag-muon-data-tight.pkl".

Section Notebook.

Context {RS : Type} `{RandomState RS}.

(** What the environment decides: whether [google.colab] imports and
    authenticates, what [pd.read_pickle] returns for a path, and the
    NumPy release's treatment of ragged rows. *)
Variable colab_auth : result unit.
Variable read_pickle : string -> result DataFrame.
Variable rejects_ragged : bool.

(** <<
try:
    from google.colab import auth
    auth.authenticate_user()
    google_colab_env = 'true'
    data_path = colab_data_path
except:
    google_colab_env = 'false'
    data_path = './sciml-workshop-data/'
>> *)
Definition data_path : result string :=
  try_except
    (let* _ := colab_auth in Ok colab_data_path)
    (Ok local_data_path).

(** <<
df = pd.read_pickle(data_path + 'muon-data/ag-muon-data-tight.pkl')
print('Number of samples in the dataset: %d' % len(df['Spectra']))
print('Length of spectra for each sample: %d' % len(df['Spectra'][0]))
>> *)
Definition read_data (path : string) : result DataFrame :=
  let* df := read_pickle (path ++ data_file)%string in
  let* first := series_loc (map Spectra df) 0 in
  Ok df.

(** The three selections of the plotting cell, with their labels. *)
Definition conditions (df : DataFrame) : list (string * list nat) :=
  [ ("no Ag"%string,
     Np.where_ (map (fun elements => negb (py_in "Ag" elements)) (map Elements df)));
    ("pure Ag"%string,
     Np.where_ (map (fun elements => bool_decide (["Ag"%string] = elements))
                    (map Elements df)));
    ("Ag-Si binary"%string,
     Np.where_ (map (fun elements => bool_decide (["Ag"%string; "Si"%string] = elements))
                    (map Elements df))) ].

Definition nplot : nat := 4.

(** <<
for icond, cond in enumerate(conditions):
    for iplot, idata in enumerate(np.random.choice(cond[1], nplot)):
        axs[iplot, icond].plot(df['Spectra'][idata][0:150], c='C%d' % icond)
>>
    The value is the list of plotted curves. *)
Fixpoint plot_conditions (df : DataFrame) (conds : list (string * list nat))
  : cell RS (list (string * nat * list float)) :=
  match conds with
  | [] => pure (Ok [])
  | cond :: conds' =>
      run* drawn := Random.choice cond.2 nplot in
      run* curves := pure (Np.take_idx (map Spectra df) drawn) in
      run* rest := plot_conditions df conds' in
      pure (Ok (zip_with (fun idata curve => (cond.1, idata, take 150 curve))
                         drawn curves ++ rest))
  end.

(** The code cells from the first to the balancing step, run in order
    and stopping at the first exception. *)
Definition notebook_preprocess : cell RS Balanced :=
  run* _ := total (fun st => (tt, Random.seed 0 st)) in
  run* path := pure data_path in
  run* df := pure (read_data path) in
  run* _ := plot_conditions df (conditions df) in
  run* xy := pure (extract_training_data rejects_ragged df) in
  balance_classes xy.1 xy.2.

(** From the file load to the training arrays, without the plots. *)
Definition load_and_extract : result (list (list float) * list Z) :=
  let* path := data_path in
  let* df := read_data path in
  extract_training_data rejects_ragged df.

End Notebook.

(** ** The Keras model and the training calls *)

Module Keras.

Inductive activation : Type := relu | sigmoid.

Inductive layer : Type :=
| Dense (units : nat) (input_dim : option nat) (act : activation)
| Dropout (rate : float).

(** [Sequential()] and [model.add(layer)] *)
Definition Sequential : list layer := [].
Definition add (model : list layer) (l : layer) : list layer := model ++ [l].

Definition is_dense (l : layer) : bool :=
  match l with Dense _ _ _ => true | Dropout _ => false end.

Definition units_of (l : layer) : option nat :=
  match l with Dense u _ _ => Some u | Dropout _ => None end.

Definition activation_of (l : layer) : option activation :=
  match l with Dense _ _ a => Some a | Dropout _ => None end.

(** The input width the first layer declares. *)
Definition model_input_dim (model : list layer) : option nat :=
  match model with
  | Dense _ d _ :: _ => d
  | _ => None
  end.

(** [tf.keras.callbacks.EarlyStopping(monitor=..., patience=...,
    restore_best_weights=...)] *)
Record EarlyStopping : Type := mkEarlyStopping {
  monitor : string;
  patience : nat;
  restore_best_weights : bool
}.

(** The keyword arguments of a [model.fit] call. *)
Record fit_args : Type := mkFit {
  epochs : nat;
  batch_size : nat;
  validation_split : float;
  callbacks : list EarlyStopping
}.

End Keras.

Import Keras.

(** <<
model = Sequential()
model.add(Dense(64, input_dim=1000, activation='relu'))
model.add(Dense(32, activation='relu'))
model.add(Dense(16, activation='relu'))
model.add(Dense(8, activation='relu'))
model.add(Dense(1, activation='sigmoid'))
>> *)
Definition model : list layer :=
  let model := Sequential in
  let model := add model (Dense 64 (Some 1000) relu) in
  let model := add model (Dense 32 None relu) in
  let model := add model (Dense 16 None relu) in
  let model := add model (Dense 8 None relu) in
  let model := add model (Dense 1 None sigmoid) in
  model.

(** The re-definition of the "Overfitting" and "Early stopping" answers:
<<
model = Sequential()
model.add(Dense(64, input_dim=1000, activation='relu'))
model.add(Dropout(0.001))
model.add(Dense(32, activation='relu'))
model.add(Dense(16, activation='relu'))
model.add(Dense(8, activation='relu'))
model.add(Dense(1, activation='sigmoid'))
>> *)
Definition model_dropout : list layer :=
  let model := Sequential in
  let model := add model (Dense 64 (Some 1000) relu) in
  let model := add model (Dropout 0.001%float) in
  let model := add model (Dense 32 None relu) in
  let model := add model (Dense 16 None relu) in
  let model := add model (Dense 8 None relu) in
  let model := add model (Dense 1 None sigmoid) in
  model.

(** <<
callback = tf.keras.callbacks.EarlyStopping(monitor='loss', patience=50, restore_best_weights=True)
>> *)
Definition callback : EarlyStopping :=
  mkEarlyStopping "loss" 50 true.

(** <<
training_history_balanced = model.fit(train_x_balanced, train_y_balanced,
                                      epochs=500, batch_size=256, validation_split=0.2,
                                      callbacks=[callback])
>> *)
Definition fit_early_stopping : fit_args :=
  mkFit 500 256 0.2%float [callback].

(** The four curves of [plot_history], as (history key, legend label):
<<
plt.plot(training_history.history[acc_str], label='Accuracy on training data')
plt.plot(training_history.history['val_' + acc_str], label='Accuracy on test data')
plt.plot(training_history.history['loss'], label='Loss on training data')
plt.plot(training_history.history['val_loss'], label='Loss on test data')
>> *)
Definition plot_history_curves (acc_str : string) : list (string * string) :=
  [ (acc_str, "Accuracy on training data"%string);
    (("val_" ++ acc_str)%string, "Accuracy on test data"%string);
    ("loss"%string, "Loss on training data"%string);
    ("val_loss"%string, "Loss on test data"%string) ].

(** What [model.fit] needs of its input: every sample as wide as the
    [input_dim] the first layer declares. *)
Definition fits_input (model : list layer) (x : list (list float)) : bool :=
  match model_input_dim model with
  | Some d => forallb (fun row => length row =? d) x
  | None => true
  end.

(** Keras records a metric computed on the validation split under the
    metric's name prefixed with [val_]. *)
Definition is_validation_metric (name : string) : bool :=
  String.prefix "val_" name.

(** The quantity an [EarlyStopping] callback reads at the end of an
    epoch: [logs.get(self.monitor)]. *)
Definition monitored_value (cb : EarlyStopping) (logs : gmap string float)
  : option float :=
  logs !! monitor cb.

(** ** Early stopping inside [fit]

    The bookkeeping of Keras's [EarlyStopping] (TensorFlow 2), with the
    defaults the notebook leaves in place ([min_delta=0], [mode='auto'],
    no baseline).  The weights are identified by the epoch that
    produced them. *)

Record es_state : Type := mkEs {
  wait : nat;
  best : float;
  best_weights : option nat;
  stopped_epoch : option nat
}.

(** [mode='auto']: [np.greater] when ['acc' in self.monitor], else [np.less]. *)
Definition monitor_op (name : string) (current best : float) : bool :=
  match String.index 0 "acc" name with
  | Some _ => PrimFloat.ltb best current
  | None => PrimFloat.ltb current best
  end.

(** [on_train_begin] *)
Definition on_train_begin (cb : EarlyStopping) : es_state :=
  mkEs 0
       (match String.index 0 "acc" (monitor cb) with
        | Some _ => neg_infinity
        | None => infinity
        end)
       None None.

(** [on_epoch_end]:
<<
current = logs.get(self.monitor)
if current is None:
    return
if self.monitor_op(current - self.min_delta, self.best):
    self.best = current
    self.wait = 0
    if self.restore_best_weights:
        self.best_weights = self.model.get_weights()
else:
    self.wait += 1
    if self.wait >= self.patience:
        self.stopped_epoch = epoch
        self.model.stop_training = True
>> *)
Definition on_epoch_end (cb : EarlyStopping) (epoch : nat)
    (logs : gmap string float) (st : es_state) : es_state :=
  match monitored_value cb logs with
  | None => st
  | Some current =>
      if monitor_op (monitor cb) current (best st) then
        mkEs 0 current
             (if restore_best_weights cb then Some epoch else best_weights st)
             (stopped_epoch st)
      else
        let wait' := S (wait st) in
        mkEs wait' (best st) (best_weights st)
             (if patience cb <=? wait' then Some epoch else stopped_epoch st)
  end.

(** The epoch loop of [fit] with one callback: [history epoch] is the
    log of that epoch; the loop ends after [epochs] epochs or when the
    callback sets [stop_training].  The value is the number of epochs
    run and the callback's final state. *)
Fixpoint fit_loop (cb : EarlyStopping) (history : nat -> gmap string float)
    (remaining epoch : nat) (st : es_state) : nat * es_state :=
  match remaining with
  | 0 => (epoch, st)
  | S remaining' =>
      let st' := on_epoch_end cb epoch (history epoch) st in
      match stopped_epoch st' with
      | Some _ => (S epoch, st')
      | None => fit_loop cb history remaining' (S epoch) st'
      end
  end.

Definition fit_with (cb : EarlyStopping) (args : fit_args)
    (history : nat -> gmap string float) : nat * es_state :=
  fit_loop cb history (epochs args) 0 (on_train_begin cb).

(** ** The histogram cells and [plot_history] *)

(** [a // b] on Python integers: the quotient rounded down. *)
Definition py_floordiv (a b : Z) : Z := (a / b)%Z.

(** [a[start:]] for an integer [start] of either sign: a negative start
    counts from the end, and a start outside the array is clipped. *)
Definition py_slice_from {A : Type} (start : Z) (a : list A) : list A :=
  let n := Z.of_nat (length a) in
  let start' := if (start <? 0)%Z then Z.max 0 (n + start) else Z.min start n in
  drop (Z.to_nat start') a.

(** The second histogram of both distribution cells:
<<
plt.hist(train_y[-len(train_y)//5:], label='Validation subset')
>>
    The unary minus applies before the division. *)
Definition validation_subset (train_y : list Z) : list Z :=
  py_slice_from (py_floordiv (- Z.of_nat (length train_y)) 5) train_y.

(** <<
acc_str = 'accuracy' if tf.__version__[:2] == '2.' else 'acc'
>> *)
Definition acc_str (tf_version : string) : string :=
  if String.eqb (String.substring 0 2 tf_version) "2." then "accuracy" else "acc".

(** [d[key]] on a dict *)
Definition dict_getitem {V : Type} (d : gmap string V) (key : string) : result V :=
  match d !! key with
  | Some v => Ok v
  | None => Raise KeyError
  end.

(** [plot_history(training_history)]: the four [plt.plot] calls in
    order, each reading one key of [training_history.history]; the
    value is the list of (legend label, curve) drawn. *)
Fixpoint plot_curves (history : gmap string (list float))
    (curves : list (string * string)) : result (list (string * list float)) :=
  match curves with
  | [] => Ok []
  | (key, label) :: curves' =>
      let* series := dict_getitem history key in
      let* rest := plot_curves history curves' in
      Ok ((label, series) :: rest)
  end.

Definition plot_history (acc_str : string) (history : gmap string (list float))
  : result (list (string * list float)) :=
  plot_curves history (plot_history_curves acc_str).

(** ** A small generator for running the cells

    A linear congruential generator reduced into the requested range.
    It stands in for the Mersenne Twister wherever a cell is evaluated
    on an example. *)

Definition lcg_next (s : Z) : Z := ((s * 1103515245 + 12345) mod 2147483648)%Z.

Definition lcg_interval (max : nat) (s : Z) : nat * Z :=
  (Z.to_nat (lcg_next s mod (Z.of_nat max + 1)), lcg_next s).

Lemma lcg_interval_le (max : nat) (s : Z) : (lcg_interval max s).1 <= max.
Proof.
  unfold lcg_interval; simpl.
  pose proof (Z.mod_pos_bound (lcg_next s) (Z.of_nat max + 1)). lia.
Qed.

#[export] Instance lcg_random_state : RandomState Z := {|
  rk_seed := fun n => (n mod 2147483648)%Z;
  rk_interval := lcg_interval;
  rk_interval_le := lcg_interval_le
|}.

(** ** Sample tables and a local environment *)

Definition demo_df : DataFrame :=
  [ mkSample ["Si"; "Fe"]%string (replicate 1000 12.5%float);
    mkSample ["Ag"]%string (replicate 1000 3%float);
    mkSample ["Cu"]%string (replicate 1000 40%float);
    mkSample ["Zn"; "Bi"]%string (replicate 1000 7.25%float);
    mkSample ["Ag"; "Si"]%string (replicate 1000 0.5%float) ].

Definition demo_train_x : list (list float) :=
  [ [1; 2]; [3; 4]; [5; 6]; [7; 8]; [9; 10] ]%float.

Definition demo_train_y : list Z := [0; 1; 0; 0; 1]%Z.

(** A table whose spectra are too short for the network, with values
    that are not positive. *)
Definition short_df : DataFrame :=
  [ mkSample ["Ag"]%string [1; -2; 0]%float;
    mkSample ["Si"]%string [-0.5; 4; 6]%float ].

(** A table with spectra of different lengths. *)
Definition ragged_df : DataFrame :=
  [ mkSample ["Ag"]%string [1; 2; 3]%float;
    mkSample ["Si"]%string [4; 5]%float ].

(** A table of exactly 50000 samples with 1000-point spectra. *)
Definition full_df : DataFrame :=
  replicate n_train (mkSample ["Ag"]%string (replicate 1000 1%float)).

(** Labels in which the samples without Ag are the fewer. *)
Definition scarce_train_y : list Z := [1; 0; 1; 1; 1]%Z.

(** The 50000-row table followed by one row with a 2-point spectrum. *)
Definition long_ragged_df : DataFrame :=
  full_df ++ [mkSample ["Si"]%string [1; 2]%float].

(** The 50000-row table, all with Ag, followed by the demo table. *)
Definition long_df : DataFrame := full_df ++ demo_df.

(** A local run: [google.colab] does not import, and the data file is
    found under the local path only. *)
Definition local_files (table : DataFrame) (path : string) : result DataFrame :=
  if String.eqb path "./sciml-workshop-data/muon-data/ag-muon-data-tight.pkl"
  then Ok table else Raise FileNotFoundError.

(** A training run whose loss on the training data keeps falling while
    the validation loss is best at epoch 3 and only rises afterwards. *)
Fixpoint falling (epoch : nat) : float :=
  match epoch with
  | 0 => 1%float
  | S epoch' => (falling epoch' * 0.99)%float
  end.

Definition overfitting_history (epoch : nat) : gmap string float :=
  {[ "loss"%string := falling epoch;
     "val_loss"%string :=
       if epoch <=? 3 then falling epoch else (2 - falling epoch)%float ]}.

(** * Properties *)

(** ** Array operations *)

Section NpFacts.

Context {A : Type}.
Implicit Types (a : list A) (idx : list nat) (mask : list bool).

Lemma nonzero_from_spec mask i j :
  j ∈ Np.nonzero_from i mask <-> exists k, j = i + k /\ mask !! k = Some true.
Proof.
  revert i. induction mask as [|b mask IH]; intros i; simpl.
  - split; [intros Hin; inversion Hin | intros (k & _ & Hk); discriminate].
  - assert (Hrec : j ∈ Np.nonzero_from (S i) mask <->
                   exists k, j = i + S k /\ mask !! k = Some true).
    { rewrite IH. split; intros (k & -> & Hk); exists k; split; auto; lia. }
    destruct b.
    + rewrite elem_of_cons, Hrec. split.
      * intros [-> | (k & -> & Hk)]; [exists 0 | exists (S k)]; split; auto; lia.
      * intros ([|k] & -> & Hk); [left; lia | right; exists k; auto].
    + rewrite Hrec. split.
      * intros (k & -> & Hk). exists (S k); auto.
      * intros ([|k] & -> & Hk); [discriminate | exists k; auto].
Qed.

Lemma where_spec mask j : j ∈ Np.where_ mask <-> mask !! j = Some true.
Proof.
  unfold Np.where_. rewrite nonzero_from_spec. split.
  - intros (k & -> & Hk). exact Hk.
  - intros Hj. exists j. auto.
Qed.

Lemma nonzero_from_length mask i :
  length (Np.nonzero_from i mask) = count_occ bool_dec mask true.
Proof.
  revert i. induction mask as [|[] mask IH]; intros i; simpl; auto.
Qed.

Lemma take_idx_total a idx (d : A) :
  Forall (fun j => j < length a) idx ->
  Np.take_idx a idx = Ok (map (fun j => default d (a !! j)) idx).
Proof.
  induction 1 as [|j idx Hj _ IH]; simpl; [reflexivity|].
  destruct (lookup_lt_is_Some_2 a j Hj) as [v Hv].
  rewrite Hv, IH. reflexivity.
Qed.

Lemma take_idx_lookup a idx vs :
  Np.take_idx a idx = Ok vs ->
  length vs = length idx /\
  forall i j, idx !! i = Some j -> j < length a /\ vs !! i = a !! j.
Proof.
  revert vs. induction idx as [|j idx IH]; intros vs; simpl.
  - intros [= <-]. split; [reflexivity | intros i j' Hi; discriminate].
  - destruct (a !! j) as [v|] eqn:Hv; [|discriminate].
    destruct (Np.take_idx a idx) as [vs'|] eqn:Hrec; simpl; [|discriminate].
    intros [= <-]. destruct (IH vs' eq_refl) as [Hlen Hat]. split.
    + simpl. congruence.
    + intros [|i] j'; simpl.
      * intros [= <-]. split; [eapply lookup_lt_Some; eauto | congruence].
      * apply Hat.
Qed.

Lemma take_idx_elem a idx vs v :
  Np.take_idx a idx = Ok vs -> v ∈ vs -> v ∈ a.
Proof.
  intros Hok Hin. apply list_elem_of_lookup in Hin as [i Hi].
  destruct (take_idx_lookup _ _ _ Hok) as [Hlen Hat].
  destruct (lookup_lt_is_Some_2 idx i) as [j Hj].
  { rewrite <- Hlen. eapply lookup_lt_Some; eauto. }
  destruct (Hat i j Hj) as [_ Heq]. rewrite Hi in Heq.
  apply list_elem_of_lookup. eauto.
Qed.

End NpFacts.

(** ** The random draws *)

Section RandomFacts.

Context {RS : Type} `{RandomState RS} {A : Type}.
Implicit Types (a x : list A) (st : RS).

Lemma randint_spec high size st :
  0 < high ->
  length (Random.randint high size st).1 = size /\
  Forall (fun j => j < high) (Random.randint high size st).1.
Proof.
  intros Hhigh. revert st. induction size as [|size IH]; intros st; simpl.
  - split; [reflexivity | constructor].
  - pose proof (rk_interval_le (high - 1) st) as Hle.
    destruct (rk_interval (high - 1) st) as [j st1]. simpl in Hle.
    specialize (IH st1). destruct (Random.randint high size st1) as [js st2].
    simpl in *. destruct IH as [Hlen Hall]. split; [congruence|].
    constructor; [lia | exact Hall].
Qed.

Lemma randint_zero high st : Random.randint high 0 st = ([], st).
Proof. reflexivity. Qed.

(** A draw from a non-empty population succeeds, has the requested
    size and stays inside the population. *)
Lemma choice_nonempty a size st :
  a <> [] ->
  exists drawn st1,
    Random.choice a size st = (Ok drawn, st1) /\
    length drawn = size /\
    forall v, v ∈ drawn -> v ∈ a.
Proof.
  intros Hne. unfold Random.choice.
  assert (Hpos : 0 < length a) by (destruct a; [congruence | simpl; lia]).
  replace (length a =? 0) with false by (symmetry; apply Nat.eqb_neq; lia).
  simpl. destruct (randint_spec (length a) size st Hpos) as [Hlen Hall].
  destruct (Random.randint (length a) size st) as [idx st1]. simpl in *.
  destruct a as [|d a']; [congruence|].
  rewrite (take_idx_total _ idx d Hall).
  eexists _, st1. split; [reflexivity|]. split.
  - rewrite length_map. exact Hlen.
  - intros v Hv. eapply take_idx_elem; [apply (take_idx_total _ idx d Hall) | exact Hv].
Qed.

(** Nothing is drawn from an empty population only when nothing is asked. *)
Lemma choice_empty size st :
  Random.choice (@nil A) size st =
  if size =? 0 then (Ok [], st) else (Raise ValueError, st).
Proof.
  unfold Random.choice. simpl. destruct size; reflexivity.
Qed.

Lemma swap_Permutation i j x : Random.swap i j x ≡ₚ x.
Proof.
  unfold Random.swap.
  destruct (x !! i) as [xi|] eqn:Hi; [|reflexivity].
  destruct (x !! j) as [xj|] eqn:Hj; [|reflexivity].
  destruct (decide (i = j)) as [->|Hne].
  - assert (xi = xj) as -> by congruence.
    rewrite list_insert_insert_eq, list_insert_id; auto.
  - apply Permutation_inj. split.
    + rewrite !length_insert. reflexivity.
    + exists (fun k => if decide (k = i) then j else if decide (k = j) then i else k).
      split.
      * intros k1 k2. repeat case_decide; subst; congruence.
      * intros k. repeat case_decide; subst.
        -- rewrite list_lookup_insert_eq; [congruence|].
           rewrite length_insert. eapply lookup_lt_Some; eauto.
        -- rewrite list_lookup_insert_ne by congruence.
           rewrite list_lookup_insert_eq; [congruence|].
           eapply lookup_lt_Some; eauto.
        -- rewrite !list_lookup_insert_ne by congruence. reflexivity.
Qed.

Lemma shuffle_loop_Permutation i x st : (Random.shuffle_loop i x st).1 ≡ₚ x.
Proof.
  revert x st. induction i as [|i IH]; intros x st; simpl; [reflexivity|].
  destruct (rk_interval (S i) st) as [j st1].
  rewrite IH. apply swap_Permutation.
Qed.

Lemma shuffle_Permutation x st : (Random.shuffle x st).1 ≡ₚ x.
Proof. apply shuffle_loop_Permutation. Qed.

End RandomFacts.

(** ** The index sets of the two classes *)

Lemma map_lookup {A B : Type} (f : A -> B) (l : list A) (i : nat) :
  map f l !! i = f <$> l !! i.
Proof. exact (list_lookup_fmap f l i). Qed.

Lemma eq_scalar_lookup (train_y : list Z) (v : Z) (j : nat) :
  Np.eq_scalar train_y v !! j = Some true <-> train_y !! j = Some v.
Proof.
  unfold Np.eq_scalar. rewrite map_lookup.
  destruct (train_y !! j) as [y|]; simpl; [|split; discriminate].
  split.
  - intros [= Heq]. apply Z.eqb_eq in Heq. congruence.
  - intros [= ->]. rewrite Z.eqb_refl. reflexivity.
Qed.

Lemma id_no_Ag_spec (train_y : list Z) (j : nat) :
  j ∈ id_no_Ag train_y <-> train_y !! j = Some 0%Z.
Proof. unfold id_no_Ag. rewrite where_spec. apply eq_scalar_lookup. Qed.

Lemma id_with_Ag_spec (train_y : list Z) (j : nat) :
  j ∈ id_with_Ag train_y <-> train_y !! j = Some 1%Z.
Proof. unfold id_with_Ag. rewrite where_spec. apply eq_scalar_lookup. Qed.

Lemma eq_scalar_count (train_y : list Z) (v : Z) :
  count_occ bool_dec (Np.eq_scalar train_y v) true = count_occ Z.eq_dec train_y v.
Proof.
  induction train_y as [|y train_y IH]; simpl; [reflexivity|].
  destruct (Z.eqb_spec y v) as [->|Hne]; simpl.
  - destruct (Z.eq_dec v v); [|congruence]. rewrite IH. reflexivity.
  - destruct (Z.eq_dec y v); [congruence|]. exact IH.
Qed.

Lemma id_with_Ag_length (train_y : list Z) :
  length (id_with_Ag train_y) = count_occ Z.eq_dec train_y 1%Z.
Proof.
  unfold id_with_Ag, Np.where_. rewrite nonzero_from_length. apply eq_scalar_count.
Qed.

Lemma id_no_Ag_nonempty (train_y : list Z) : 0%Z ∈ train_y -> id_no_Ag train_y <> [].
Proof.
  intros Hin Hnil. apply list_elem_of_lookup in Hin as [j Hj].
  apply id_no_Ag_spec in Hj. rewrite Hnil in Hj. inversion Hj.
Qed.

(** ** One run of the balancing cell *)

Section BalanceFacts.

Context {RS : Type} `{RandomState RS}.

Lemma balance_classes_run (train_x : list (list float)) (train_y : list Z) (st : RS) :
  length train_x = length train_y ->
  id_no_Ag train_y <> [] \/ id_with_Ag train_y = [] ->
  exists b st', balance_classes train_x train_y st = (Ok b, st') /\
                balanced_run train_x train_y b.
Proof.
  intros Hlen Hdraw. unfold balance_classes, cbind.
  assert (Hchoice : exists drawn st1,
    Random.choice (id_no_Ag train_y) (length (id_with_Ag train_y)) st = (Ok drawn, st1) /\
    length drawn = length (id_with_Ag train_y) /\
    forall j, j ∈ drawn -> j ∈ id_no_Ag train_y).
  { destruct (id_no_Ag train_y) as [|j0 rest] eqn:Hno.
    - destruct Hdraw as [Hne | Hnil]; [congruence|].
      rewrite Hnil, choice_empty. simpl. exists [], st. auto.
    - apply choice_nonempty. discriminate. }
  destruct Hchoice as (drawn & st1 & -> & Hsize & Hfrom).
  unfold total.
  pose proof (shuffle_Permutation (Np.concatenate (id_with_Ag train_y) drawn) st1) as Hperm.
  destruct (Random.shuffle (Np.concatenate (id_with_Ag train_y) drawn) st1) as [ids st2].
  simpl in Hperm. unfold pure.
  assert (Hrange : Forall (fun j => j < length train_y) ids).
  { apply Forall_forall. intros j Hj. rewrite Hperm in Hj.
    unfold Np.concatenate in Hj. apply elem_of_app in Hj as [Hj | Hj].
    - apply id_with_Ag_spec in Hj. eapply lookup_lt_Some; eauto.
    - apply Hfrom, id_no_Ag_spec in Hj. eapply lookup_lt_Some; eauto. }
  assert (Hrange_x : Forall (fun j => j < length train_x) ids) by (rewrite Hlen; exact Hrange).
  rewrite (take_idx_total train_x ids [] Hrange_x).
  rewrite (take_idx_total train_y ids 0%Z Hrange).
  eexists _, st2. split; [reflexivity|].
  unfold balanced_run; simpl. repeat split; auto.
  - apply take_idx_total; exact Hrange_x.
  - apply take_idx_total; exact Hrange.
Qed.

(** The draw is impossible exactly when there are samples with Ag and
    none without: [np.random.choice] then raises. *)
Lemma balance_classes_raises (train_x : list (list float)) (train_y : list Z) (st : RS) :
  id_no_Ag train_y = [] -> id_with_Ag train_y <> [] ->
  balance_classes train_x train_y st = (Raise ValueError, st).
Proof.
  intros Hno Hwith. unfold balance_classes, cbind.
  rewrite Hno, choice_empty.
  destruct (id_with_Ag train_y); [congruence | reflexivity].
Qed.

End BalanceFacts.

(** ** Class balancing: what the cell computes *)

Lemma take_idx_map {A : Type} (a : list A) (idx : list nat) (vs : list A) (d : A) :
  Np.take_idx a idx = Ok vs -> vs = map (fun j => default d (a !! j)) idx.
Proof.
  revert vs. induction idx as [|j idx IH]; intros vs; simpl.
  - congruence.
  - destruct (a !! j) as [v|]; [|discriminate].
    destruct (Np.take_idx a idx) as [vs'|]; simpl; [|discriminate].
    intros [= <-]. rewrite (IH vs' eq_refl). reflexivity.
Qed.

Lemma count_occ_map_const {A : Type} (f : A -> Z) (l : list A) (c v : Z) :
  (forall j, j ∈ l -> f j = c) ->
  count_occ Z.eq_dec (map f l) v = if Z.eq_dec c v then length l else 0.
Proof.
  intros Hconst. induction l as [|j l IH]; simpl.
  - destruct (Z.eq_dec c v); reflexivity.
  - rewrite (Hconst j) by left. rewrite IH by (intros j' Hj'; apply Hconst; right; exact Hj').
    destruct (Z.eq_dec c v); reflexivity.
Qed.

(** The labels selected by a run: as many of class [v] as the two index
    lists contribute. *)
Lemma balanced_run_count (train_x : list (list float)) (train_y : list Z)
    (b : Balanced) (v : Z) :
  balanced_run train_x train_y b ->
  count_occ Z.eq_dec (train_y_balanced b) v =
  (if Z.eq_dec 1%Z v then length (id_with_Ag train_y) else 0) +
  (if Z.eq_dec 0%Z v then length (id_with_Ag train_y) else 0).
Proof.
  intros (Hsize & Hfrom & Hperm & _ & Hy).
  rewrite (take_idx_map _ _ _ 0%Z Hy).
  set (label := fun j : nat => default 0%Z (train_y !! j)).
  transitivity (count_occ Z.eq_dec
                  (map label (Np.concatenate (id_with_Ag train_y) (id_no_Ag_downsample b))) v).
  { apply (Permutation_count_occ Z.eq_dec). apply Permutation_map. exact Hperm. }
  unfold Np.concatenate. rewrite map_app, count_occ_app.
  rewrite (count_occ_map_const label (id_with_Ag train_y) 1%Z).
  2:{ intros j Hj. apply id_with_Ag_spec in Hj. unfold label. rewrite Hj. reflexivity. }
  rewrite (count_occ_map_const label (id_no_Ag_downsample b) 0%Z).
  2:{ intros j Hj. apply Hfrom, id_no_Ag_spec in Hj. unfold label. rewrite Hj. reflexivity. }
  rewrite Hsize. reflexivity.
Qed.

Section BalanceClaims.

Context {RS : Type} `{RandomState RS}.

(** C1.  The balancing cell draws exactly [len(id_with_Ag)] indices, each
    an index whose label is 0 (repeats allowed), puts them after all the
    indices whose label is 1, reorders the combined index array, and
    selects [train_x_balanced] and [train_y_balanced] by that array. *)
Theorem balance_classes_downsamples
    (train_x : list (list float)) (train_y : list Z) (st : RS) :
  length train_x = length train_y ->
  0%Z ∈ train_y ->
  exists b st',
    balance_classes train_x train_y st = (Ok b, st') /\
    length (id_no_Ag_downsample b) = length (id_with_Ag train_y) /\
    (forall j, j ∈ id_no_Ag_downsample b -> train_y !! j = Some 0%Z) /\
    (forall j, j ∈ id_with_Ag train_y <-> train_y !! j = Some 1%Z) /\
    id_downsample b ≡ₚ id_with_Ag train_y ++ id_no_Ag_downsample b /\
    Np.take_idx train_x (id_downsample b) = Ok (train_x_balanced b) /\
    Np.take_idx train_y (id_downsample b) = Ok (train_y_balanced b).
Proof.
  intros Hlen Hzero.
  destruct (balance_classes_run train_x train_y st Hlen) as (b & st' & Hrun & Hb).
  { left. apply id_no_Ag_nonempty. exact Hzero. }
  destruct Hb as (Hsize & Hfrom & Hperm & Hx & Hy).
  exists b, st'. repeat split; auto.
  - intros j Hj. apply id_no_Ag_spec, Hfrom, Hj.
  - apply id_with_Ag_spec.
  - apply id_with_Ag_spec.
Qed.

(** C2.  For labels holding at least one 0 and one 1, the balanced labels
    hold as many 0s as 1s, each as many as the 1s of [train_y]. *)
Theorem balanced_equal_counts
    (train_x : list (list float)) (train_y : list Z) (st : RS) :
  length train_x = length train_y ->
  0%Z ∈ train_y ->
  1%Z ∈ train_y ->
  exists b st',
    balance_classes train_x train_y st = (Ok b, st') /\
    count_occ Z.eq_dec (train_y_balanced b) 0%Z = count_occ Z.eq_dec train_y 1%Z /\
    count_occ Z.eq_dec (train_y_balanced b) 1%Z = count_occ Z.eq_dec train_y 1%Z /\
    0 < count_occ Z.eq_dec train_y 1%Z.
Proof.
  intros Hlen Hzero Hone.
  destruct (balance_classes_run train_x train_y st Hlen) as (b & st' & Hrun & Hb).
  { left. apply id_no_Ag_nonempty. exact Hzero. }
  exists b, st'. split; [exact Hrun|].
  rewrite !(balanced_run_count train_x train_y b _ Hb), <- id_with_Ag_length.
  simpl. repeat split; try lia.
  apply list_elem_of_In, (count_occ_In Z.eq_dec) in Hone.
  rewrite id_with_Ag_length. lia.
Qed.

(** C8.  Position [i] of both balanced arrays comes from the one sample
    [j = id_downsample[i]]: the spectrum and the label stay paired. *)
Theorem balance_preserves_pairing
    (train_x : list (list float)) (train_y : list Z) (st : RS) :
  length train_x = length train_y ->
  0%Z ∈ train_y ->
  exists b st',
    balance_classes train_x train_y st = (Ok b, st') /\
    length (train_x_balanced b) = length (id_downsample b) /\
    length (train_y_balanced b) = length (id_downsample b) /\
    forall i, i < length (id_downsample b) ->
      exists j spectrum label,
        id_downsample b !! i = Some j /\
        train_x !! j = Some spectrum /\ train_y !! j = Some label /\
        train_x_balanced b !! i = Some spectrum /\
        train_y_balanced b !! i = Some label.
Proof.
  intros Hlen Hzero.
  destruct (balance_classes_run train_x train_y st Hlen) as (b & st' & Hrun & Hb).
  { left. apply id_no_Ag_nonempty. exact Hzero. }
  destruct Hb as (_ & _ & _ & Hx & Hy).
  destruct (take_idx_lookup _ _ _ Hx) as [Hlx Hatx].
  destruct (take_idx_lookup _ _ _ Hy) as [Hly Haty].
  exists b, st'. repeat split; auto.
  intros i Hi. destruct (lookup_lt_is_Some_2 _ _ Hi) as [j Hj].
  destruct (Hatx i j Hj) as [Hjx Hbx]. destruct (Haty i j Hj) as [Hjy Hby].
  destruct (lookup_lt_is_Some_2 _ _ Hjx) as [spectrum Hs].
  destruct (lookup_lt_is_Some_2 _ _ Hjy) as [label Hl].
  exists j, spectrum, label. repeat split; congruence.
Qed.

End BalanceClaims.

(** ** Extracting the training arrays *)

Lemma py_in_spec (x : string) (elements : list string) :
  py_in x elements = true <-> x ∈ elements.
Proof.
  unfold py_in. rewrite existsb_exists, list_elem_of_In. split.
  - intros (y & Hy & Heq). apply String.eqb_eq in Heq. congruence.
  - intros Hin. exists x. split; [exact Hin | apply String.eqb_refl].
Qed.

Lemma train_y_of_labels (df : DataFrame) :
  train_y_of df = take n_train (map label_of df).
Proof.
  unfold train_y_of, Np.slice_to, Np.astype_int. f_equal.
  rewrite !map_map. apply map_ext. intros sample. unfold label_of.
  destruct (py_in "Ag" (Elements sample)) eqn:Hin; case_decide; try reflexivity.
  - apply py_in_spec in Hin. contradiction.
  - apply py_in_spec in H. congruence.
Qed.

Lemma uniform_Forall {A : Type} (rows : list (list A)) (m : nat) :
  Forall (fun row => length row = m) rows -> Np.uniform rows = true.
Proof.
  intros Hall. destruct rows as [|r rs]; [reflexivity|]. simpl.
  apply Forall_cons in Hall as [Hr Hrs]. apply forallb_forall.
  intros r' Hin. apply Nat.eqb_eq. apply list_elem_of_In in Hin.
  rewrite Forall_forall in Hrs. rewrite (Hrs r' Hin). congruence.
Qed.

Lemma spectra_rows_length (df : DataFrame) (m : nat) :
  Forall (fun sample => length (Spectra sample) = m) df ->
  Forall (fun row => length row = m) (map Spectra df).
Proof. intros Hall. apply Forall_map. exact Hall. Qed.

(** On a table whose spectra share one length, of whatever value, the
    extraction returns the first [50000] spectra and labels unchanged. *)
Lemma extract_uniform (rejects_ragged : bool) (df : DataFrame) (m : nat) :
  Forall (fun sample => length (Spectra sample) = m) df ->
  extract_training_data rejects_ragged df =
    Ok (take n_train (map Spectra df), train_y_of df).
Proof.
  intros Hall. unfold extract_training_data, train_x_of, Np.array.
  rewrite (uniform_Forall _ m (spectra_rows_length df m Hall)). reflexivity.
Qed.

(** On ragged spectra the outcome is NumPy's: its ValueError, or the rows
    as objects. *)
Lemma extract_ragged (rejects_ragged : bool) (df : DataFrame) :
  Np.uniform (map Spectra df) = false ->
  extract_training_data rejects_ragged df =
    if rejects_ragged then Raise ValueError
    else Ok (take n_train (map Spectra df), train_y_of df).
Proof.
  intros Hragged. unfold extract_training_data, train_x_of, Np.array.
  rewrite Hragged. destruct rejects_ragged; reflexivity.
Qed.

(** Whenever the extraction returns, the two arrays have one row per
    kept sample: the balancing cell is entered with equal lengths. *)
Lemma extract_lengths (rejects_ragged : bool) (df : DataFrame)
    (train_x : list (list float)) (train_y : list Z) :
  extract_training_data rejects_ragged df = Ok (train_x, train_y) ->
  train_x = take n_train (map Spectra df) /\ length train_x = length train_y.
Proof.
  unfold extract_training_data, train_x_of, Np.array, Np.slice_to.
  intros Hok.
  assert (Heq : train_x = take n_train (map Spectra df) /\ train_y = train_y_of df).
  { destruct (Np.uniform (map Spectra df)); [|destruct rejects_ragged];
      simpl in Hok; try discriminate; injection Hok as <- <-; auto. }
  destruct Heq as [-> ->]. split; [reflexivity|].
  rewrite train_y_of_labels, !length_take, !length_map. reflexivity.
Qed.

Lemma n_train_value : Z.of_nat n_train = 50000%Z.
Proof. unfold n_train. lia. Qed.

Lemma n_train_pos : 0 < n_train.
Proof. pose proof n_train_value. lia. Qed.

(** C3.  Within the first 50000 rows, [train_y[i]] is 1 when "Ag" is a
    member of sample [i]'s element list and 0 otherwise; rows from 50000
    on have no label. *)
Theorem train_y_is_Ag_membership (df : DataFrame) (i : nat) (sample : Sample) :
  df !! i = Some sample ->
  length (train_y_of df) = Nat.min n_train (length df) /\
  (i < n_train ->
     train_y_of df !! i = Some 1%Z /\ "Ag"%string ∈ Elements sample \/
     train_y_of df !! i = Some 0%Z /\ "Ag"%string ∉ Elements sample) /\
  (n_train <= i -> train_y_of df !! i = None).
Proof.
  intros Hi. rewrite train_y_of_labels.
  rewrite length_take, length_map. split; [reflexivity|]. split.
  - intros Hlt. rewrite lookup_take_lt by exact Hlt.
    rewrite map_lookup, Hi. simpl. unfold label_of.
    case_decide; [left | right]; auto.
  - intros Hge. apply lookup_take_ge. exact Hge.
Qed.

(** C10.  [train_x] holds each sample's whole spectrum: for a table of
    length-1000 spectra it has the network's 1000 columns, and 50000
    rows once the table has that many; row [i] of [train_x] and entry
    [i] of [train_y] come from the same sample [i] of the table. *)
Theorem train_x_is_full_spectrum (rejects_ragged : bool) (df : DataFrame) :
  Forall (fun sample => length (Spectra sample) = 1000) df ->
  exists train_x train_y,
    extract_training_data rejects_ragged df = Ok (train_x, train_y) /\
    length train_x = Nat.min n_train (length df) /\
    length train_y = length train_x /\
    Forall (fun row => Some (length row) = model_input_dim model) train_x /\
    (n_train <= length df -> Np.shape train_x = [n_train; 1000]) /\
    forall i, i < length train_x ->
      exists sample,
        df !! i = Some sample /\
        train_x !! i = Some (Spectra sample) /\
        train_y !! i = Some (label_of sample).
Proof.
  intros Hall. exists (take n_train (map Spectra df)), (train_y_of df).
  pose proof (spectra_rows_length df 1000 Hall) as Hrows.
  assert (Htake : Forall (fun row => length row = 1000) (take n_train (map Spectra df)))
    by (apply Forall_take; exact Hrows).
  split; [apply (extract_uniform _ _ 1000 Hall)|].
  rewrite train_y_of_labels, !length_take, !length_map.
  split; [reflexivity|]. split; [reflexivity|]. split; [|split].
  - eapply Forall_impl; [exact Htake|]. intros row Hrow. simpl. congruence.
  - intros Hlen. unfold Np.shape.
    rewrite (uniform_Forall _ 1000 Htake).
    destruct (take n_train (map Spectra df)) as [|r rs] eqn:Hrs.
    + apply (f_equal length) in Hrs. rewrite length_take, length_map in Hrs.
      change (length (@nil (list float))) with 0 in Hrs.
      pose proof n_train_pos. lia.
    + apply Forall_cons in Htake as [Hr _]. rewrite Hr, <- Hrs.
      rewrite length_take, length_map. f_equal. lia.
  - intros i Hi.
    destruct (lookup_lt_is_Some_2 df i) as [sample Hs]; [lia|].
    exists sample. split; [exact Hs|].
    rewrite !lookup_take_lt by lia. rewrite !map_lookup, Hs. auto.
Qed.

(** C6.  The extraction accepts a two-column table whatever the common
    length [m] of its spectra and whatever their values, and hands the
    spectra on unchanged; the result fits the network's input exactly
    when [m] is the 1000 that [input_dim] declares. *)
Theorem spectrum_length_is_unchecked_precondition
    (rejects_ragged : bool) (df : DataFrame) (m : nat) :
  df <> [] ->
  Forall (fun sample => length (Spectra sample) = m) df ->
  model_input_dim model = Some 1000 /\
  model_input_dim model_dropout = Some 1000 /\
  exists train_x,
    extract_training_data rejects_ragged df = Ok (train_x, train_y_of df) /\
    train_x = take n_train (map Spectra df) /\
    (fits_input model train_x = true <-> m = 1000).
Proof.
  intros Hne Hall. split; [reflexivity|]. split; [reflexivity|].
  exists (take n_train (map Spectra df)).
  split; [apply (extract_uniform _ _ m Hall)|]. split; [reflexivity|].
  unfold fits_input. simpl model_input_dim. cbv beta iota.
  destruct df as [|s df']; [congruence|].
  apply Forall_cons in Hall as [Hs Hall'].
  assert (Hn : exists n', n_train = S n')
    by (exists (Nat.pred n_train); pose proof n_train_pos; lia).
  destruct Hn as [n' ->]. rewrite map_cons, firstn_cons.
  change (firstn n' (map Spectra df')) with (take n' (map Spectra df')).
  simpl forallb. rewrite andb_true_iff, Nat.eqb_eq, Hs. split.
  - intros [Hm _]. exact Hm.
  - intros ->. split; [reflexivity|]. apply forallb_forall.
    intros row Hin. apply Nat.eqb_eq. apply list_elem_of_In in Hin.
    apply elem_of_take in Hin as (k & Hk & _).
    rewrite map_lookup in Hk. destruct (df' !! k) as [s'|] eqn:Hk'; [|discriminate].
    simpl in Hk. injection Hk as <-.
    rewrite Forall_forall in Hall'. apply Hall'.
    apply list_elem_of_lookup. eauto.
Qed.

(** ** From the file load to the training arrays *)

Lemma data_path_cases (colab_auth : result unit) :
  data_path colab_auth =
    Ok (match colab_auth with Ok _ => colab_data_path | Raise _ => local_data_path end).
Proof. destruct colab_auth as [[]|e]; reflexivity. Qed.

(** The only exception the extraction cell can end in is NumPy's
    ValueError on ragged rows. *)
Lemma extract_raises (rejects_ragged : bool) (df : DataFrame) (e : exn) :
  extract_training_data rejects_ragged df = Raise e ->
  e = ValueError /\ rejects_ragged = true /\ Np.uniform (map Spectra df) = false.
Proof.
  unfold extract_training_data, train_x_of, Np.array.
  destruct (Np.uniform (map Spectra df)); [discriminate|].
  destruct rejects_ragged; [|discriminate].
  simpl. intros [= <-]. auto.
Qed.

(** C7.  Between the file load and the training arrays nothing is
    validated and nothing is caught: an exception of [pd.read_pickle],
    of the column lookup or of [np.array] is the outcome as raised, and
    a table of any common spectrum length and any values comes out as
    its first 50000 spectra, unchanged. *)
Theorem load_and_extract_no_handling
    (colab_auth : result unit) (read_pickle : string -> result DataFrame)
    (rejects_ragged : bool) :
  exists path,
    data_path colab_auth = Ok path /\
    (forall e, read_pickle (path ++ data_file)%string = Raise e ->
       load_and_extract colab_auth read_pickle rejects_ragged = Raise e) /\
    (read_pickle (path ++ data_file)%string = Ok [] ->
       load_and_extract colab_auth read_pickle rejects_ragged = Raise KeyError) /\
    (forall df, df <> [] -> read_pickle (path ++ data_file)%string = Ok df ->
       load_and_extract colab_auth read_pickle rejects_ragged =
         extract_training_data rejects_ragged df /\
       (forall e, Np.array rejects_ragged (map Spectra df) = Raise e ->
          load_and_extract colab_auth read_pickle rejects_ragged = Raise e) /\
       (forall m, Forall (fun sample => length (Spectra sample) = m) df ->
          load_and_extract colab_auth read_pickle rejects_ragged =
            Ok (take n_train (map Spectra df), train_y_of df))).
Proof.
  eexists. split; [apply data_path_cases|].
  unfold load_and_extract. rewrite data_path_cases. simpl bind.
  unfold read_data. split; [|split].
  - intros e ->. reflexivity.
  - intros ->. reflexivity.
  - intros df Hne ->.
    assert (Hrun : (let* df0 := (let* df1 := Ok df in
                                 let* first := series_loc (map Spectra df1) 0 in Ok df1) in
                    extract_training_data rejects_ragged df0)
                   = extract_training_data rejects_ragged df).
    { destruct df as [|s df']; [congruence | reflexivity]. }
    rewrite Hrun. split; [reflexivity|]. split.
    + intros e He. unfold extract_training_data, train_x_of. rewrite He. reflexivity.
    + intros m Hall. apply (extract_uniform _ _ m Hall).
Qed.

(** ** Two runs of the notebook *)

(** C9.  Whatever state NumPy's generator starts a run in, the cells up
    to the balancing step end in the same outcome, the same balanced
    arrays and index array included: the seed replaces the state before
    the first draw. *)
Theorem notebook_preprocess_deterministic
    {RS : Type} `{RandomState RS}
    (colab_auth : result unit) (read_pickle : string -> result DataFrame)
    (rejects_ragged : bool) (st1 st2 : RS) :
  notebook_preprocess colab_auth read_pickle rejects_ragged st1 =
  notebook_preprocess colab_auth read_pickle rejects_ragged st2.
Proof.
  unfold notebook_preprocess, cbind, total, Random.seed. reflexivity.
Qed.

(** ** The network and the callback *)

(** C5.  The model is five Dense layers of widths 64, 32, 16, 8 and 1,
    ReLU on the first four and sigmoid on the last; the re-definitions
    with dropout keep the same Dense stack. *)
Theorem model_topology :
  model = [ Dense 64 (Some 1000) relu; Dense 32 None relu; Dense 16 None relu;
            Dense 8 None relu; Dense 1 None sigmoid ] /\
  length model = 5 /\
  forallb is_dense model = true /\
  omap units_of model = [64; 32; 16; 8; 1] /\
  omap activation_of model = [relu; relu; relu; relu; sigmoid] /\
  List.filter is_dense model_dropout = model.
Proof. repeat split; reflexivity. Qed.

(** C4.  The callback handed to [fit] has patience 50 and restores the
    best weights, but the quantity it monitors is [loss], the curve
    [plot_history] labels as the loss on training data: it is no
    validation metric, and what the callback reads at the end of an
    epoch does not change with any validation metric of that epoch. *)
Theorem early_stopping_monitors_training_loss :
  callbacks fit_early_stopping = [callback] /\
  patience callback = 50 /\
  restore_best_weights callback = true /\
  monitor callback = "loss"%string /\
  is_validation_metric (monitor callback) = false /\
  (forall acc_str : string,
     (monitor callback, "Loss on training data"%string) ∈ plot_history_curves acc_str) /\
  (forall (logs : gmap string float) (name : string) (v : float),
     is_validation_metric name = true ->
     monitored_value callback (<[name := v]> logs) = monitored_value callback logs).
Proof.
  repeat split; try reflexivity.
  - intros acc_str. unfold plot_history_curves. simpl. set_solver.
  - intros logs name v Hval. unfold monitored_value. simpl.
    apply lookup_insert_ne. intros ->. discriminate.
Qed.

(** * The cells on a small table *)

Example demo_train_y_extracted : train_y_of demo_df = demo_train_y.
Proof. vm_compute. reflexivity. Qed.

Example demo_balance_from_0 :
  (balance_classes demo_train_x demo_train_y 0%Z).1 =
  Ok (mkBalanced [0; 2] [1; 0; 4; 2]
        [ [3; 4]; [1; 2]; [9; 10]; [5; 6] ]%float [1; 0; 1; 0]%Z).
Proof. vm_compute. reflexivity. Qed.

(** With replacement: from state 7 sample 0 is drawn twice. *)
Example demo_balance_repeats :
  (balance_classes demo_train_x demo_train_y 7%Z).1 =
  Ok (mkBalanced [0; 0] [4; 0; 1; 0]
        [ [9; 10]; [1; 2]; [3; 4]; [1; 2] ]%float [1; 0; 1; 0]%Z).
Proof. vm_compute. reflexivity. Qed.

(** Without the seed the outcome does depend on the generator's state. *)
Example demo_balance_depends_on_state :
  (balance_classes demo_train_x demo_train_y 0%Z).1 <>
  (balance_classes demo_train_x demo_train_y 7%Z).1.
Proof. rewrite demo_balance_from_0, demo_balance_repeats. discriminate. Qed.

(** Only samples with Ag: nothing to draw from, [np.random.choice] raises. *)
Example demo_balance_no_majority :
  balance_classes demo_train_x [1; 1]%Z 7%Z = (Raise ValueError, 7%Z).
Proof. reflexivity. Qed.

Example short_df_extracted :
  extract_training_data true short_df =
  Ok ([ [1; -2; 0]; [-0.5; 4; 6] ]%float, [1; 0]%Z).
Proof. vm_compute. reflexivity. Qed.

Example ragged_df_extracted :
  extract_training_data true ragged_df = Raise ValueError /\
  extract_training_data false ragged_df =
  Ok ([ [1; 2; 3]; [4; 5] ]%float, [1; 0]%Z).
Proof. split; vm_compute; reflexivity. Qed.

(** ** Instances of the theorems *)

Lemma balance_classes_downsamples_witness :
  length demo_train_x = length demo_train_y /\
  0%Z ∈ demo_train_y /\
  exists b st',
    balance_classes demo_train_x demo_train_y 0%Z = (Ok b, st') /\
    length (id_no_Ag_downsample b) = length (id_with_Ag demo_train_y) /\
    (forall j, j ∈ id_no_Ag_downsample b -> demo_train_y !! j = Some 0%Z) /\
    (forall j, j ∈ id_with_Ag demo_train_y <-> demo_train_y !! j = Some 1%Z) /\
    id_downsample b ≡ₚ id_with_Ag demo_train_y ++ id_no_Ag_downsample b /\
    Np.take_idx demo_train_x (id_downsample b) = Ok (train_x_balanced b) /\
    Np.take_idx demo_train_y (id_downsample b) = Ok (train_y_balanced b).
Proof.
  split; [reflexivity|]. split; [compute_done|].
  apply (balance_classes_downsamples demo_train_x demo_train_y 0%Z);
    [reflexivity | compute_done].
Defined.

Lemma balanced_equal_counts_witness :
  length demo_train_x = length demo_train_y /\
  0%Z ∈ demo_train_y /\
  1%Z ∈ demo_train_y /\
  exists b st',
    balance_classes demo_train_x demo_train_y 7%Z = (Ok b, st') /\
    count_occ Z.eq_dec (train_y_balanced b) 0%Z = count_occ Z.eq_dec demo_train_y 1%Z /\
    count_occ Z.eq_dec (train_y_balanced b) 1%Z = count_occ Z.eq_dec demo_train_y 1%Z /\
    0 < count_occ Z.eq_dec demo_train_y 1%Z.
Proof.
  split; [reflexivity|]. split; [compute_done|]. split; [compute_done|].
  apply (balanced_equal_counts demo_train_x demo_train_y 7%Z);
    [reflexivity | compute_done | compute_done].
Defined.

Lemma balance_preserves_pairing_witness :
  length demo_train_x = length demo_train_y /\
  0%Z ∈ demo_train_y /\
  exists b st',
    balance_classes demo_train_x demo_train_y 7%Z = (Ok b, st') /\
    length (train_x_balanced b) = length (id_downsample b) /\
    length (train_y_balanced b) = length (id_downsample b) /\
    forall i, i < length (id_downsample b) ->
      exists j spectrum label,
        id_downsample b !! i = Some j /\
        demo_train_x !! j = Some spectrum /\ demo_train_y !! j = Some label /\
        train_x_balanced b !! i = Some spectrum /\
        train_y_balanced b !! i = Some label.
Proof.
  split; [reflexivity|]. split; [compute_done|].
  apply (balance_preserves_pairing demo_train_x demo_train_y 7%Z);
    [reflexivity | compute_done].
Defined.

Lemma train_y_is_Ag_membership_witness :
  demo_df !! 4 = Some (mkSample ["Ag"; "Si"]%string (replicate 1000 0.5%float)) /\
  length (train_y_of demo_df) = Nat.min n_train (length demo_df) /\
  (4 < n_train ->
     train_y_of demo_df !! 4 = Some 1%Z /\ "Ag"%string ∈ ["Ag"; "Si"]%string \/
     train_y_of demo_df !! 4 = Some 0%Z /\ "Ag"%string ∉ ["Ag"; "Si"]%string) /\
  (n_train <= 4 -> train_y_of demo_df !! 4 = None).
Proof.
  split; [reflexivity|].
  apply (train_y_is_Ag_membership demo_df 4
           (mkSample ["Ag"; "Si"]%string (replicate 1000 0.5%float))).
  reflexivity.
Defined.

Lemma full_df_lengths : Forall (fun sample => length (Spectra sample) = 1000) full_df.
Proof. apply Forall_replicate. reflexivity. Qed.

Lemma train_x_is_full_spectrum_witness :
  Forall (fun sample => length (Spectra sample) = 1000) full_df /\
  n_train <= length full_df /\
  exists train_x train_y,
    extract_training_data true full_df = Ok (train_x, train_y) /\
    length train_x = Nat.min n_train (length full_df) /\
    length train_y = length train_x /\
    Forall (fun row => Some (length row) = model_input_dim model) train_x /\
    (n_train <= length full_df -> Np.shape train_x = [n_train; 1000]) /\
    forall i, i < length train_x ->
      exists sample,
        full_df !! i = Some sample /\
        train_x !! i = Some (Spectra sample) /\
        train_y !! i = Some (label_of sample).
Proof.
  split; [exact full_df_lengths|].
  split; [unfold full_df; rewrite length_replicate; apply Nat.le_refl|].
  apply (train_x_is_full_spectrum true full_df). exact full_df_lengths.
Defined.

Lemma spectrum_length_is_unchecked_precondition_witness :
  short_df <> [] /\
  Forall (fun sample => length (Spectra sample) = 3) short_df /\
  model_input_dim model = Some 1000 /\
  model_input_dim model_dropout = Some 1000 /\
  exists train_x,
    extract_training_data true short_df = Ok (train_x, train_y_of short_df) /\
    train_x = take n_train (map Spectra short_df) /\
    (fits_input model train_x = true <-> 3 = 1000).
Proof.
  split; [discriminate|]. split; [repeat constructor|].
  apply (spectrum_length_is_unchecked_precondition true short_df 3);
    [discriminate | repeat constructor].
Defined.

(** ** Runs in a concrete environment *)

Example local_run_extracts :
  load_and_extract (Raise ImportError) (local_files short_df) true =
  Ok ([ [1; -2; 0]; [-0.5; 4; 6] ]%float, [1; 0]%Z).
Proof. vm_compute. reflexivity. Qed.

Example colab_run_without_bucket :
  load_and_extract (Ok tt) (local_files short_df) true = Raise FileNotFoundError.
Proof. vm_compute. reflexivity. Qed.

Example local_run_empty_table :
  load_and_extract (Raise ImportError) (local_files []) true = Raise KeyError.
Proof. vm_compute. reflexivity. Qed.

Example local_run_ragged_table :
  load_and_extract (Raise ImportError) (local_files ragged_df) true = Raise ValueError.
Proof. vm_compute. reflexivity. Qed.

(** The whole preparation on the demo table, from two different states. *)
Example demo_notebook_run :
  let run := notebook_preprocess (Raise ImportError) (local_files demo_df) true in
  (run 1%Z).1 = (run 99%Z).1 /\
  exists b, (run 1%Z).1 = Ok b /\
            id_downsample b = [2; 4; 1; 2] /\ train_y_balanced b = [0; 1; 1; 0]%Z.
Proof.
  split; [vm_compute; reflexivity|].
  eexists. split; [vm_compute; reflexivity|]. split; reflexivity.
Qed.

(** ** Early stopping on an overfitting run *)

(** Monitoring [loss], the callback never fires: all 500 epochs run and
    the weights in place are the last epoch's. *)
Example overfitting_run_not_stopped :
  let '(epochs_run, st) := fit_with callback fit_early_stopping overfitting_history in
  epochs_run = 500 /\ stopped_epoch st = None /\ best_weights st = Some 499.
Proof. vm_compute. repeat split; reflexivity. Qed.

(** The same call with a callback on [val_loss] stops 50 epochs after the
    best validation epoch and keeps the weights of epoch 3. *)
Example overfitting_run_stopped_on_val_loss :
  let '(epochs_run, st) :=
    fit_with (mkEarlyStopping "val_loss" 50 true) fit_early_stopping overfitting_history in
  epochs_run = 54 /\ stopped_epoch st = Some 53 /\ best_weights st = Some 3.
Proof. vm_compute. repeat split; reflexivity. Qed.

(** * Further properties of the cells *)

(** ** The balancing cell: when it returns and what it keeps *)

Lemma id_no_Ag_length (train_y : list Z) :
  length (id_no_Ag train_y) = count_occ Z.eq_dec train_y 0%Z.
Proof.
  unfold id_no_Ag, Np.where_. rewrite nonzero_from_length. apply eq_scalar_count.
Qed.

Lemma id_no_Ag_empty (train_y : list Z) : id_no_Ag train_y = [] <-> 0%Z ∉ train_y.
Proof.
  split.
  - intros Hnil Hin. exact (id_no_Ag_nonempty train_y Hin Hnil).
  - intros Hnot. destruct (id_no_Ag train_y) as [|j rest] eqn:Hids; [reflexivity|].
    exfalso. apply Hnot. assert (Hj : j ∈ id_no_Ag train_y) by (rewrite Hids; left).
    apply id_no_Ag_spec in Hj. apply list_elem_of_lookup. eauto.
Qed.

Lemma id_with_Ag_empty (train_y : list Z) : id_with_Ag train_y = [] <-> 1%Z ∉ train_y.
Proof.
  split.
  - intros Hnil Hin. apply list_elem_of_lookup in Hin as [j Hj].
    apply id_with_Ag_spec in Hj. rewrite Hnil in Hj. inversion Hj.
  - intros Hnot. destruct (id_with_Ag train_y) as [|j rest] eqn:Hids; [reflexivity|].
    exfalso. apply Hnot. assert (Hj : j ∈ id_with_Ag train_y) by (rewrite Hids; left).
    apply id_with_Ag_spec in Hj. apply list_elem_of_lookup. eauto.
Qed.

Lemma nonzero_from_NoDup (mask : list bool) (i : nat) : NoDup (Np.nonzero_from i mask).
Proof.
  revert i. induction mask as [|b mask IH]; intros i; simpl; [constructor|].
  destruct b; [|apply IH].
  apply NoDup_cons. split; [|apply IH].
  intros Hin. apply (nonzero_from_spec mask (S i) i) in Hin as (k & Hk & _). lia.
Qed.

Lemma id_with_Ag_NoDup (train_y : list Z) : NoDup (id_with_Ag train_y).
Proof. apply nonzero_from_NoDup. Qed.

Section BalanceMore.

Context {RS : Type} `{RandomState RS}.

(** X1.  The cell returns exactly when there is something to draw from
    or nothing to draw: with a 0 among the labels, or no 1, it returns;
    with 1s and no 0 it stops with the ValueError of [np.random.choice]
    before any draw. *)
Theorem balance_classes_returns_iff
    (train_x : list (list float)) (train_y : list Z) (st : RS) :
  length train_x = length train_y ->
  (0%Z ∈ train_y \/ 1%Z ∉ train_y ->
     exists b st', balance_classes train_x train_y st = (Ok b, st')) /\
  (0%Z ∉ train_y -> 1%Z ∈ train_y ->
     balance_classes train_x train_y st = (Raise ValueError, st)).
Proof.
  intros Hlen. split.
  - intros Hdraw.
    destruct (balance_classes_run train_x train_y st Hlen) as (b & st' & Hrun & _).
    { destruct Hdraw as [Hzero | Hone].
      - left. apply id_no_Ag_nonempty, Hzero.
      - right. apply id_with_Ag_empty, Hone. }
    eauto.
  - intros Hzero Hone. apply balance_classes_raises.
    + apply id_no_Ag_empty, Hzero.
    + intros Hnil. apply id_with_Ag_empty in Hnil. contradiction.
Qed.

(** X2.  The balanced arrays have twice as many rows as there are
    samples labelled 1, and every balanced label is 0 or 1: a sample
    with any other label is never selected. *)
Theorem balanced_size_and_labels
    (train_x : list (list float)) (train_y : list Z) (st : RS) :
  length train_x = length train_y ->
  0%Z ∈ train_y ->
  exists b st',
    balance_classes train_x train_y st = (Ok b, st') /\
    length (train_y_balanced b) = 2 * count_occ Z.eq_dec train_y 1%Z /\
    length (train_x_balanced b) = length (train_y_balanced b) /\
    Forall (fun y => y = 0%Z \/ y = 1%Z) (train_y_balanced b).
Proof.
  intros Hlen Hzero.
  destruct (balance_classes_run train_x train_y st Hlen) as (b & st' & Hrun & Hb).
  { left. apply id_no_Ag_nonempty, Hzero. }
  exists b, st'. split; [exact Hrun|].
  destruct Hb as (Hsize & Hfrom & Hperm & Hx & Hy).
  destruct (take_idx_lookup _ _ _ Hx) as [Hlx _].
  destruct (take_idx_lookup _ _ _ Hy) as [Hly Haty].
  assert (Hids : length (id_downsample b) = 2 * length (id_with_Ag train_y)).
  { rewrite Hperm. unfold Np.concatenate. rewrite length_app, Hsize. lia. }
  rewrite <- id_with_Ag_length. repeat split; try lia.
  apply Forall_forall. intros y Hin.
  apply list_elem_of_lookup in Hin as [i Hi].
  destruct (lookup_lt_is_Some_2 (id_downsample b) i) as [j Hj].
  { rewrite <- Hly. eapply lookup_lt_Some; eauto. }
  destruct (Haty i j Hj) as [_ Heq]. rewrite Hi in Heq.
  assert (Hmem : j ∈ Np.concatenate (id_with_Ag train_y) (id_no_Ag_downsample b)).
  { rewrite <- Hperm. apply list_elem_of_lookup. eauto. }
  apply elem_of_app in Hmem as [Hmem | Hmem].
  - apply id_with_Ag_spec in Hmem. right. congruence.
  - apply Hfrom, id_no_Ag_spec in Hmem. left. congruence.
Qed.

(** X3.  Every sample labelled 1 is kept exactly once: its index occurs
    once in [id_downsample], whatever the draw and the reordering. *)
Theorem minority_kept_exactly_once
    (train_x : list (list float)) (train_y : list Z) (st : RS) :
  length train_x = length train_y ->
  0%Z ∈ train_y ->
  exists b st',
    balance_classes train_x train_y st = (Ok b, st') /\
    forall j, train_y !! j = Some 1%Z ->
      count_occ Nat.eq_dec (id_downsample b) j = 1.
Proof.
  intros Hlen Hzero.
  destruct (balance_classes_run train_x train_y st Hlen) as (b & st' & Hrun & Hb).
  { left. apply id_no_Ag_nonempty, Hzero. }
  exists b, st'. split; [exact Hrun|].
  destruct Hb as (_ & Hfrom & Hperm & _ & _).
  intros j Hj.
  rewrite (Permutation_count_occ Nat.eq_dec) in Hperm. rewrite Hperm.
  unfold Np.concatenate. rewrite count_occ_app.
  assert (Hwith : count_occ Nat.eq_dec (id_with_Ag train_y) j = 1).
  { apply NoDup_count_occ'; [apply NoDup_ListNoDup, id_with_Ag_NoDup|].
    apply list_elem_of_In, id_with_Ag_spec, Hj. }
  assert (Hdrawn : count_occ Nat.eq_dec (id_no_Ag_downsample b) j = 0).
  { apply count_occ_not_In. intros Hin.
    apply list_elem_of_In, Hfrom, id_no_Ag_spec in Hin. congruence. }
  lia.
Qed.

(** X4.  When the samples labelled 0 are the fewer, the draw cannot be
    free of repeats: some sample without Ag enters the balanced set
    more than once. *)
Theorem scarce_majority_is_repeated
    (train_x : list (list float)) (train_y : list Z) (st : RS) :
  length train_x = length train_y ->
  0%Z ∈ train_y ->
  count_occ Z.eq_dec train_y 0%Z < count_occ Z.eq_dec train_y 1%Z ->
  exists b st',
    balance_classes train_x train_y st = (Ok b, st') /\
    ~ NoDup (id_no_Ag_downsample b).
Proof.
  intros Hlen Hzero Hfew.
  destruct (balance_classes_run train_x train_y st Hlen) as (b & st' & Hrun & Hb).
  { left. apply id_no_Ag_nonempty, Hzero. }
  exists b, st'. split; [exact Hrun|].
  destruct Hb as (Hsize & Hfrom & _).
  intros Hnodup.
  assert (Hle : length (id_no_Ag_downsample b) <= length (id_no_Ag train_y)).
  { apply NoDup_incl_length; [apply NoDup_ListNoDup, Hnodup|].
    intros j Hin. apply list_elem_of_In, Hfrom, list_elem_of_In, Hin. }
  rewrite Hsize, id_with_Ag_length, id_no_Ag_length in Hle. lia.
Qed.

End BalanceMore.

(** ** The extraction cell: labels, ragged rows and the row limit *)

Lemma label_of_binary (sample : Sample) : label_of sample = 0%Z \/ label_of sample = 1%Z.
Proof. unfold label_of. case_decide; auto. Qed.

Lemma train_y_of_binary (df : DataFrame) :
  Forall (fun y => y = 0%Z \/ y = 1%Z) (train_y_of df).
Proof.
  rewrite train_y_of_labels. apply Forall_take, Forall_map, Forall_forall.
  intros sample _. apply label_of_binary.
Qed.

Lemma binary_counts (l : list Z) :
  Forall (fun y => y = 0%Z \/ y = 1%Z) l ->
  count_occ Z.eq_dec l 0%Z + count_occ Z.eq_dec l 1%Z = length l.
Proof.
  induction 1 as [|y l [-> | ->] _ IH]; simpl; lia.
Qed.

(** X5.  The labels the extraction cell produces are all 0 or 1, so the
    two index sets of the balancing cell split the rows of [train_y]:
    every row is in exactly one of them. *)
Theorem extracted_labels_partition (df : DataFrame) :
  Forall (fun y => y = 0%Z \/ y = 1%Z) (train_y_of df) /\
  (forall j, j < length (train_y_of df) ->
     (j ∈ id_no_Ag (train_y_of df) <-> j ∉ id_with_Ag (train_y_of df))) /\
  length (id_no_Ag (train_y_of df)) + length (id_with_Ag (train_y_of df))
    = length (train_y_of df).
Proof.
  pose proof (train_y_of_binary df) as Hbin. split; [exact Hbin|]. split.
  - intros j Hj. rewrite id_no_Ag_spec, id_with_Ag_spec.
    destruct (lookup_lt_is_Some_2 _ _ Hj) as [y Hy]. rewrite Hy.
    assert (Hy01 : y = 0%Z \/ y = 1%Z).
    { rewrite Forall_forall in Hbin. apply Hbin, list_elem_of_lookup. eauto. }
    destruct Hy01 as [-> | ->]; split; congruence.
  - rewrite id_no_Ag_length, id_with_Ag_length. apply binary_counts, Hbin.
Qed.

Lemma uniform_false {A : Type} (r0 r : list A) (rows : list (list A)) (i : nat) :
  rows !! 0 = Some r0 -> rows !! i = Some r -> length r <> length r0 ->
  Np.uniform rows = false.
Proof.
  intros H0 Hi Hne. destruct rows as [|r0' rest]; [discriminate|].
  simpl in H0. injection H0 as ->. simpl.
  destruct i as [|k]; [simpl in Hi; congruence|]. simpl in Hi.
  destruct (forallb (fun r' => length r' =? length r0) rest) eqn:Hall; [|reflexivity].
  exfalso. apply Hne, Nat.eqb_eq.
  rewrite forallb_forall in Hall. apply Hall, list_elem_of_In, list_elem_of_lookup. eauto.
Qed.

(** X6.  The whole [Spectra] column is converted before the slice: one
    spectrum whose length differs from the first row's, at any position
    of the table and also beyond row 50000, makes the cell end in
    NumPy's ValueError (or, with a NumPy that accepts ragged rows, in an
    array of row objects). *)
Theorem ragged_row_anywhere
    (rejects_ragged : bool) (df : DataFrame) (first other : Sample) (i : nat) :
  df !! 0 = Some first ->
  df !! i = Some other ->
  length (Spectra other) <> length (Spectra first) ->
  extract_training_data rejects_ragged df =
    if rejects_ragged then Raise ValueError
    else Ok (take n_train (map Spectra df), train_y_of df).
Proof.
  intros H0 Hi Hne. apply extract_ragged.
  apply (uniform_false (Spectra first) (Spectra other) _ i);
    [rewrite map_lookup, H0 | rewrite map_lookup, Hi | exact Hne]; reflexivity.
Qed.

(** X7.  Among tables whose spectra share one length, the rows from
    50000 on have no influence: two tables with the same first 50000
    rows give the same [train_x] and [train_y]. *)
Theorem rows_beyond_limit_ignored
    (rejects_ragged : bool) (df1 df2 : DataFrame) (m1 m2 : nat) :
  Forall (fun sample => length (Spectra sample) = m1) df1 ->
  Forall (fun sample => length (Spectra sample) = m2) df2 ->
  take n_train df1 = take n_train df2 ->
  extract_training_data rejects_ragged df1 = extract_training_data rejects_ragged df2.
Proof.
  intros H1 H2 Hsame.
  rewrite (extract_uniform _ _ m1 H1), (extract_uniform _ _ m2 H2).
  rewrite !train_y_of_labels.
  change (map Spectra df1) with (Spectra <$> df1).
  change (map Spectra df2) with (Spectra <$> df2).
  change (map label_of df1) with (label_of <$> df1).
  change (map label_of df2) with (label_of <$> df2).
  rewrite <- !fmap_take, Hsame. reflexivity.
Qed.

(** ** The histogram cells *)

(** X8.  The "validation subset" of the histogram cells is the last
    ceil(n/5) labels: the minus sign applies before the floor division,
    so a length not divisible by 5 rounds the subset up. *)
Theorem validation_subset_last_fifth (train_y : list Z) :
  validation_subset train_y =
    drop (length train_y - (length train_y + 4) / 5) train_y /\
  length (validation_subset train_y) = (length train_y + 4) / 5.
Proof.
  unfold validation_subset, py_slice_from, py_floordiv.
  set (n := length train_y).
  pose proof (Nat2Z.inj_div (n + 4) 5) as Hdiv.
  assert (Hstart : Z.to_nat
            (if (- Z.of_nat n / 5 <? 0)%Z
             then Z.max 0 (Z.of_nat n + - Z.of_nat n / 5)
             else Z.min (- Z.of_nat n / 5) (Z.of_nat n)) = n - (n + 4) / 5).
  { destruct (Z.ltb_spec (- Z.of_nat n / 5) 0); cbv beta iota;
      zify; Z.to_euclidean_division_equations; lia. }
  rewrite Hstart. split; [reflexivity|].
  rewrite length_drop. fold n.
  zify; Z.to_euclidean_division_equations; lia.
Qed.

(** ** [plot_history] *)

Lemma plot_curves_outcome (history : gmap string (list float))
    (curves : list (string * string)) :
  match plot_curves history curves with
  | Ok drawn =>
      Forall2 (fun curve d => d.1 = curve.2 /\ history !! curve.1 = Some d.2) curves drawn
  | Raise e =>
      e = KeyError /\ exists curve, curve ∈ curves /\ history !! curve.1 = None
  end.
Proof.
  induction curves as [|[key label] curves IH]; simpl; [constructor|].
  unfold dict_getitem. destruct (history !! key) as [series|] eqn:Hkey; simpl.
  - destruct (plot_curves history curves) as [rest|e]; simpl.
    + constructor; [simpl; auto | exact IH].
    + destruct IH as (-> & curve & Hin & Hnone). split; [reflexivity|].
      exists curve. split; [right; exact Hin | exact Hnone].
  - split; [reflexivity|]. exists (key, label). split; [left | exact Hkey].
Qed.

(** X9.  [plot_history] draws its four curves only from a history that
    holds the accuracy and the loss both for the training and for the
    validation data; a history lacking one of the four keys (a [fit]
    without validation data, or the other release's accuracy key) ends
    the call in KeyError. *)
Theorem plot_history_needs_validation_keys
    (acc : string) (history : gmap string (list float)) :
  match plot_history acc history with
  | Ok drawn =>
      exists a va l vl,
        history !! acc = Some a /\ history !! ("val_" ++ acc)%string = Some va /\
        history !! "loss"%string = Some l /\ history !! "val_loss"%string = Some vl /\
        drawn = [ ("Accuracy on training data"%string, a);
                  ("Accuracy on test data"%string, va);
                  ("Loss on training data"%string, l);
                  ("Loss on test data"%string, vl) ]
  | Raise e =>
      e = KeyError /\
      exists key, key ∈ [acc; ("val_" ++ acc)%string; "loss"%string; "val_loss"%string] /\
                  history !! key = None
  end.
Proof.
  unfold plot_history.
  pose proof (plot_curves_outcome history (plot_history_curves acc)) as Hout.
  destruct (plot_curves history (plot_history_curves acc)) as [drawn|e].
  - unfold plot_history_curves in Hout.
    repeat match goal with
           | Hf : Forall2 _ (_ :: _) _ |- _ =>
               apply Forall2_cons_inv_l in Hf as ([? ?] & ? & [? ?] & Hf & ->)
           | Hf : Forall2 _ [] _ |- _ => apply Forall2_nil_inv_l in Hf as ->
           end.
    simpl in *. subst. eauto 10.
  - destruct Hout as (-> & [key label] & Hin & Hnone). split; [reflexivity|].
    exists key. split; [|exact Hnone].
    unfold plot_history_curves in Hin.
    repeat (apply elem_of_cons in Hin as [[= -> _] | Hin]; [set_solver|]).
    inversion Hin.
Qed.

(** ** The plotting cell *)

Lemma where_map_spec {A : Type} (p : A -> bool) (l : list A) (j : nat) :
  j ∈ Np.where_ (map p l) <-> exists x, l !! j = Some x /\ p x = true.
Proof.
  rewrite where_spec, map_lookup. destruct (l !! j) as [x|]; simpl.
  - split; [intros [= Hp]; eauto | intros (x' & [= <-] & Hp); congruence].
  - split; [discriminate | intros (x' & Hx & _); discriminate].
Qed.

(** What each of the three selections holds. *)
Definition meets (label : string) (sample : Sample) : Prop :=
  label = "no Ag"%string /\ "Ag"%string ∉ Elements sample \/
  label = "pure Ag"%string /\ Elements sample = ["Ag"%string] \/
  label = "Ag-Si binary"%string /\ Elements sample = ["Ag"%string; "Si"%string].

Lemma conditions_spec (df : DataFrame) (cond : string * list nat) (j : nat) :
  cond ∈ conditions df -> j ∈ cond.2 ->
  exists sample, df !! j = Some sample /\ meets cond.1 sample.
Proof.
  unfold conditions. intros Hcond Hj.
  repeat (apply elem_of_cons in Hcond as [-> | Hcond]); [| | |inversion Hcond];
    simpl in Hj; rewrite map_map in Hj;
    apply where_map_spec in Hj as (sample & Hs & Hp);
    exists sample; (split; [exact Hs|]); unfold meets; simpl.
  - left. split; [reflexivity|]. intros Hin. apply py_in_spec in Hin.
    rewrite Hin in Hp. discriminate.
  - right; left. split; [reflexivity|]. apply bool_decide_eq_true in Hp. congruence.
  - right; right. split; [reflexivity|]. apply bool_decide_eq_true in Hp. congruence.
Qed.

Lemma conditions_nonempty (df : DataFrame) :
  (exists sample, sample ∈ df /\ "Ag"%string ∉ Elements sample) ->
  (exists sample, sample ∈ df /\ Elements sample = ["Ag"%string]) ->
  (exists sample, sample ∈ df /\ Elements sample = ["Ag"%string; "Si"%string]) ->
  Forall (fun cond : string * list nat => cond.2 <> []) (conditions df).
Proof.
  intros (s1 & Hin1 & H1) (s2 & Hin2 & H2) (s3 & Hin3 & H3).
  apply list_elem_of_lookup in Hin1 as [j1 Hj1].
  apply list_elem_of_lookup in Hin2 as [j2 Hj2].
  apply list_elem_of_lookup in Hin3 as [j3 Hj3].
  unfold conditions. repeat constructor; simpl; rewrite map_map; intros Hnil.
  - assert (Hj : j1 ∈ Np.where_ (map (fun x => negb (py_in "Ag" (Elements x))) df)).
    { apply where_map_spec. exists s1. split; [exact Hj1|].
      destruct (py_in "Ag" (Elements s1)) eqn:Hp; [|reflexivity].
      apply py_in_spec in Hp. contradiction. }
    rewrite Hnil in Hj. inversion Hj.
  - assert (Hj : j2 ∈ Np.where_
                   (map (fun x => bool_decide (["Ag"%string] = Elements x)) df)).
    { apply where_map_spec. exists s2. split; [exact Hj2|].
      apply bool_decide_eq_true. congruence. }
    rewrite Hnil in Hj. inversion Hj.
  - assert (Hj : j3 ∈ Np.where_
                   (map (fun x => bool_decide (["Ag"%string; "Si"%string] = Elements x)) df)).
    { apply where_map_spec. exists s3. split; [exact Hj3|].
      apply bool_decide_eq_true. congruence. }
    rewrite Hnil in Hj. inversion Hj.
Qed.

(** A missing kind of sample leaves one selection of the plotting cell
    empty. *)
Lemma plot_cell_raises_selection (df : DataFrame) :
  (forall sample, sample ∈ df -> "Ag"%string ∈ Elements sample) \/
  (forall sample, sample ∈ df -> Elements sample <> ["Ag"%string]) \/
  (forall sample, sample ∈ df -> Elements sample <> ["Ag"%string; "Si"%string]) ->
  exists cond, cond ∈ conditions df /\ cond.2 = [].
Proof.
  intros Hmissing.
  assert (Hempty : forall cond : string * list nat,
            (forall j, j ∈ cond.2 -> False) -> cond.2 = []).
  { intros cond Hnone. destruct cond.2 as [|j ids]; [reflexivity|].
    exfalso. apply (Hnone j). left. }
  destruct Hmissing as [Hall | [Hall | Hall]].
  - eexists. split; [unfold conditions; left|].
    apply Hempty. intros j Hj.
    eapply (conditions_spec df) in Hj as (sample & Hs & Hm); [|unfold conditions; left].
    destruct Hm as [[_ Hno] | [[Hl _] | [Hl _]]]; try discriminate.
    apply Hno, Hall, list_elem_of_lookup. eauto.
  - eexists. split; [unfold conditions; right; left|].
    apply Hempty. intros j Hj.
    eapply (conditions_spec df) in Hj as (sample & Hs & Hm);
      [|unfold conditions; right; left].
    destruct Hm as [[Hl _] | [[_ Hpure] | [Hl _]]]; try discriminate.
    apply (Hall sample); [apply list_elem_of_lookup; eauto | exact Hpure].
  - eexists. split; [unfold conditions; right; right; left|].
    apply Hempty. intros j Hj.
    eapply (conditions_spec df) in Hj as (sample & Hs & Hm);
      [|unfold conditions; right; right; left].
    destruct Hm as [[Hl _] | [[Hl _] | [_ Hbin]]]; try discriminate.
    apply (Hall sample); [apply list_elem_of_lookup; eauto | exact Hbin].
Qed.

Section PlotFacts.

Context {RS : Type} `{RandomState RS}.

(** One plotted curve: the first 150 points of the spectrum of a sample
    that the selection named by the label holds. *)
Definition plotted_from (df : DataFrame) (conds : list (string * list nat))
    (curve : string * nat * list float) : Prop :=
  exists cond sample,
    cond ∈ conds /\ curve.1.1 = cond.1 /\ curve.1.2 ∈ cond.2 /\
    df !! curve.1.2 = Some sample /\ curve.2 = take 150 (Spectra sample).

Lemma plot_conditions_ok (df : DataFrame) (conds : list (string * list nat)) (st : RS) :
  Forall (fun cond : string * list nat => cond.2 <> []) conds ->
  Forall (fun cond : string * list nat => Forall (fun j => j < length df) cond.2) conds ->
  exists curves st',
    plot_conditions df conds st = (Ok curves, st') /\
    length curves = nplot * length conds /\
    Forall (plotted_from df conds) curves.
Proof.
  intros Hne Hin. revert st.
  induction conds as [|cond conds IH]; intros st.
  - exists [], st. simpl. repeat split; try lia; try constructor.
  - apply Forall_cons in Hne as [Hne1 Hne]. apply Forall_cons in Hin as [Hin1 Hin].
    simpl. unfold cbind at 1.
    destruct (choice_nonempty cond.2 nplot st Hne1) as (drawn & st1 & -> & Hlen & Hfrom).
    unfold cbind at 1. unfold pure at 1.
    assert (Hrange : Forall (fun j => j < length (map Spectra df)) drawn).
    { rewrite length_map. apply Forall_forall. intros j Hj.
      rewrite Forall_forall in Hin1. apply Hin1, Hfrom, Hj. }
    rewrite (take_idx_total _ drawn [] Hrange).
    unfold cbind at 1.
    destruct (IH Hne Hin st1) as (rest & st2 & -> & Hrest_len & Hrest).
    unfold pure. eexists _, st2. split; [reflexivity|]. split.
    + rewrite length_app, length_zip_with, length_map, Hrest_len, Hlen. simpl. lia.
    + apply Forall_app. split.
      * apply Forall_forall. intros curve Hcurve.
        apply list_elem_of_lookup in Hcurve as [k Hk].
        apply lookup_zip_with_Some in Hk as (idata & c & -> & Hidata & Hc).
        rewrite map_lookup, Hidata in Hc. simpl in Hc. injection Hc as <-.
        assert (Hmem : idata ∈ cond.2) by (apply Hfrom, list_elem_of_lookup; eauto).
        assert (Hlt : idata < length df) by (rewrite Forall_forall in Hin1; auto).
        destruct (lookup_lt_is_Some_2 df idata Hlt) as [sample Hs].
        exists cond, sample. simpl. rewrite map_lookup, Hs. simpl.
        repeat split; auto. left.
      * eapply Forall_impl; [exact Hrest|].
        intros curve (c & sample & Hc & Hrest'). exists c, sample.
        split; [right; exact Hc | exact Hrest'].
Qed.

Lemma plot_conditions_raises (df : DataFrame) (conds : list (string * list nat)) (st : RS) :
  Exists (fun cond : string * list nat => cond.2 = []) conds ->
  Forall (fun cond : string * list nat => Forall (fun j => j < length df) cond.2) conds ->
  exists st', plot_conditions df conds st = (Raise ValueError, st').
Proof.
  intros Hex Hin. revert st.
  induction conds as [|cond conds IH]; intros st; [inversion Hex|].
  apply Forall_cons in Hin as [Hin1 Hin]. simpl. unfold cbind at 1.
  destruct (cond.2) as [|j0 ids] eqn:Hids.
  - rewrite choice_empty. simpl. eauto.
  - assert (Hne1 : j0 :: ids <> []) by discriminate.
    destruct (choice_nonempty (j0 :: ids) nplot st Hne1) as (drawn & st1 & -> & _ & Hfrom).
    unfold cbind at 1. unfold pure at 1.
    assert (Hrange : Forall (fun j => j < length (map Spectra df)) drawn).
    { rewrite length_map. apply Forall_forall. intros j Hj.
      rewrite Forall_forall in Hin1. apply Hin1, Hfrom, Hj. }
    rewrite (take_idx_total _ drawn [] Hrange).
    unfold cbind at 1.
    apply Exists_cons in Hex as [Hhead | Htail]; [congruence|].
    destruct (IH Htail Hin st1) as (st' & ->). eauto.
Qed.

Lemma conditions_in_range (df : DataFrame) :
  Forall (fun cond : string * list nat => Forall (fun j => j < length df) cond.2)
         (conditions df).
Proof.
  apply Forall_forall. intros cond Hcond. apply Forall_forall. intros j Hj.
  destruct (conditions_spec df cond j Hcond Hj) as (sample & Hs & _).
  eapply lookup_lt_Some; eauto.
Qed.

(** X10.  On a table holding at least one sample without Ag, one of pure
    Ag and one listed exactly as Ag, Si, the plotting cell draws
    3 x 4 curves; each is the first 150 points (at most) of the spectrum
    of a sample of the selection it is labelled with. *)
Theorem plot_cell_curves (df : DataFrame) (st : RS) :
  (exists sample, sample ∈ df /\ "Ag"%string ∉ Elements sample) ->
  (exists sample, sample ∈ df /\ Elements sample = ["Ag"%string]) ->
  (exists sample, sample ∈ df /\ Elements sample = ["Ag"%string; "Si"%string]) ->
  exists curves st',
    plot_conditions df (conditions df) st = (Ok curves, st') /\
    length curves = 12 /\
    Forall (fun curve : string * nat * list float =>
              length curve.2 <= 150 /\
              exists sample,
                df !! curve.1.2 = Some sample /\
                curve.2 = take 150 (Spectra sample) /\
                meets curve.1.1 sample) curves.
Proof.
  intros H1 H2 H3.
  destruct (plot_conditions_ok df (conditions df) st
              (conditions_nonempty df H1 H2 H3) (conditions_in_range df))
    as (curves & st' & Hrun & Hlen & Hall).
  exists curves, st'. split; [exact Hrun|]. split; [exact Hlen|].
  eapply Forall_impl; [exact Hall|].
  intros curve (cond & sample & Hcond & Hlabel & Hmem & Hs & Hcurve).
  split; [rewrite Hcurve, length_take; lia|].
  destruct (conditions_spec df cond _ Hcond Hmem) as (sample' & Hs' & Hmeets).
  exists sample. rewrite Hlabel. repeat split; auto. congruence.
Qed.

(** X11.  When one of the three selections is empty (no sample without
    Ag, none of pure Ag, or none listed exactly as Ag, Si) the plotting
    cell ends in the ValueError of [np.random.choice]. *)
Theorem plot_cell_raises (df : DataFrame) (st : RS) :
  (forall sample, sample ∈ df -> "Ag"%string ∈ Elements sample) \/
  (forall sample, sample ∈ df -> Elements sample <> ["Ag"%string]) \/
  (forall sample, sample ∈ df -> Elements sample <> ["Ag"%string; "Si"%string]) ->
  exists st', plot_conditions df (conditions df) st = (Raise ValueError, st').
Proof.
  intros Hmissing. apply plot_conditions_raises; [|apply conditions_in_range].
  destruct (plot_cell_raises_selection df Hmissing) as (cond & Hcond & Hnil).
  apply Exists_exists. eauto.
Qed.

End PlotFacts.

(** ** From the table to the balanced arrays *)

Lemma cbind_ok {RS A B : Type} (c : cell RS A) (k : A -> cell RS B)
    (st st1 : RS) (a : A) :
  c st = (Ok a, st1) -> cbind c k st = k a st1.
Proof. intros Hc. unfold cbind. rewrite Hc. reflexivity. Qed.

Lemma read_data_nonempty (read_pickle : string -> result DataFrame)
    (path : string) (df : DataFrame) :
  read_pickle (path ++ data_file)%string = Ok df -> df <> [] ->
  read_data read_pickle path = Ok df.
Proof.
  intros Hread Hne. unfold read_data. rewrite Hread. simpl.
  destruct df as [|s df']; [congruence | reflexivity].
Qed.

(** X12.  The cells run in order, from the seed to the balancing step:
    on a table that is found, has spectra of one length, holds the three
    kinds of sample the plots need and a sample without Ag among its
    first 50000 rows, the run returns, and position [i] of the balanced
    arrays holds the spectrum and the Ag label of row [id_downsample[i]]
    of the table, a row below 50000. *)
Theorem notebook_preprocess_pairs_table
    {RS : Type} `{RandomState RS}
    (colab_auth : result unit) (read_pickle : string -> result DataFrame)
    (rejects_ragged : bool) (st : RS) (df : DataFrame) (m : nat) :
  read_pickle ((match colab_auth with
                | Ok _ => colab_data_path
                | Raise _ => local_data_path
                end) ++ data_file)%string = Ok df ->
  Forall (fun sample => length (Spectra sample) = m) df ->
  (exists sample, sample ∈ df /\ Elements sample = ["Ag"%string]) ->
  (exists sample, sample ∈ df /\ Elements sample = ["Ag"%string; "Si"%string]) ->
  (exists i sample, i < n_train /\ df !! i = Some sample /\
                    "Ag"%string ∉ Elements sample) ->
  exists b st',
    notebook_preprocess colab_auth read_pickle rejects_ragged st = (Ok b, st') /\
    length (train_x_balanced b) = length (id_downsample b) /\
    length (train_y_balanced b) = length (id_downsample b) /\
    forall i j, id_downsample b !! i = Some j ->
      j < n_train /\
      exists sample,
        df !! j = Some sample /\
        train_x_balanced b !! i = Some (Spectra sample) /\
        train_y_balanced b !! i = Some (label_of sample).
Proof.
  intros Hread Hall Hpure Hbin (i0 & s0 & Hi0 & Hs0 & Hno).
  assert (Hne : df <> []) by (intros ->; discriminate).
  assert (Hnone : exists sample, sample ∈ df /\ "Ag"%string ∉ Elements sample).
  { exists s0. split; [apply list_elem_of_lookup; eauto | exact Hno]. }
  destruct (plot_conditions_ok df (conditions df) (rk_seed 0)
              (conditions_nonempty df Hnone Hpure Hbin) (conditions_in_range df))
    as (curves & st2 & Hplot & _).
  set (train_x := take n_train (map Spectra df)).
  set (train_y := train_y_of df).
  assert (Hlen : length train_x = length train_y).
  { unfold train_x, train_y. rewrite train_y_of_labels, !length_take, !length_map.
    reflexivity. }
  assert (Hzero : 0%Z ∈ train_y).
  { apply list_elem_of_lookup. exists i0. unfold train_y.
    rewrite train_y_of_labels, lookup_take_lt by exact Hi0.
    rewrite map_lookup, Hs0. simpl. unfold label_of. case_decide; [contradiction | reflexivity]. }
  destruct (balance_classes_run train_x train_y st2 Hlen) as (b & st' & Hrun & Hb).
  { left. apply id_no_Ag_nonempty, Hzero. }
  exists b, st'. split.
  - unfold notebook_preprocess.
    erewrite cbind_ok by reflexivity.
    erewrite cbind_ok by (unfold pure; rewrite data_path_cases; reflexivity).
    erewrite cbind_ok
      by (unfold pure; rewrite (read_data_nonempty _ _ df Hread Hne); reflexivity).
    erewrite cbind_ok by exact Hplot.
    erewrite cbind_ok
      by (unfold pure; rewrite (extract_uniform _ _ m Hall); reflexivity).
    exact Hrun.
  - destruct Hb as (_ & _ & _ & Hx & Hy).
    destruct (take_idx_lookup _ _ _ Hx) as [Hlx Hatx].
    destruct (take_idx_lookup _ _ _ Hy) as [Hly Haty].
    split; [exact Hlx|]. split; [exact Hly|].
    intros i j Hj. destruct (Hatx i j Hj) as [Hjx Hbx]. destruct (Haty i j Hj) as [_ Hby].
    unfold train_x in Hjx, Hbx. unfold train_y in Hby.
    rewrite length_take, length_map in Hjx.
    assert (Hjn : j < n_train) by lia. split; [exact Hjn|].
    destruct (lookup_lt_is_Some_2 df j) as [sample Hs]; [lia|].
    exists sample. split; [exact Hs|].
    rewrite Hbx, Hby, train_y_of_labels, !lookup_take_lt by exact Hjn.
    rewrite !map_lookup, Hs. auto.
Qed.

Lemma cbind_raise {RS A B : Type} (c : cell RS A) (k : A -> cell RS B)
    (st st1 : RS) (e : exn) :
  c st = (Raise e, st1) -> cbind c k st = (Raise e, st1).
Proof. intros Hc. unfold cbind. rewrite Hc. reflexivity. Qed.

(** X13.  A table lacking one of the three plotted kinds of sample stops
    the run at the plotting cell: the ValueError of its draw is the
    outcome, and neither the extraction nor the balancing is reached. *)
Theorem notebook_stops_at_plots
    {RS : Type} `{RandomState RS}
    (colab_auth : result unit) (read_pickle : string -> result DataFrame)
    (rejects_ragged : bool) (st : RS) (df : DataFrame) :
  read_pickle ((match colab_auth with
                | Ok _ => colab_data_path
                | Raise _ => local_data_path
                end) ++ data_file)%string = Ok df ->
  df <> [] ->
  (forall sample, sample ∈ df -> "Ag"%string ∈ Elements sample) \/
  (forall sample, sample ∈ df -> Elements sample <> ["Ag"%string]) \/
  (forall sample, sample ∈ df -> Elements sample <> ["Ag"%string; "Si"%string]) ->
  exists st',
    notebook_preprocess colab_auth read_pickle rejects_ragged st = (Raise ValueError, st').
Proof.
  intros Hread Hne Hmissing.
  assert (Hplot : exists st', plot_conditions df (conditions df) (rk_seed 0)
                              = (Raise ValueError, st')).
  { apply plot_conditions_raises; [|apply conditions_in_range].
    destruct (plot_cell_raises_selection df Hmissing) as (cond & Hcond & Hnil).
    apply Exists_exists. eauto. }
  destruct Hplot as (st' & Hplot). exists st'.
  unfold notebook_preprocess.
  erewrite cbind_ok by reflexivity.
  erewrite cbind_ok by (unfold pure; rewrite data_path_cases; reflexivity).
  erewrite cbind_ok
    by (unfold pure; rewrite (read_data_nonempty _ _ df Hread Hne); reflexivity).
  apply cbind_raise. exact Hplot.
Qed.

(** X14.  The balancing cell sees only the first 50000 rows: when every
    one of them holds Ag, the run passes the plots and the extraction
    and then ends in the ValueError of the balancing draw, even though
    later rows of the table are without Ag. *)
Theorem notebook_first_rows_all_Ag
    {RS : Type} `{RandomState RS}
    (colab_auth : result unit) (read_pickle : string -> result DataFrame)
    (rejects_ragged : bool) (st : RS) (df : DataFrame) (m : nat) :
  read_pickle ((match colab_auth with
                | Ok _ => colab_data_path
                | Raise _ => local_data_path
                end) ++ data_file)%string = Ok df ->
  Forall (fun sample => length (Spectra sample) = m) df ->
  (exists sample, sample ∈ df /\ "Ag"%string ∉ Elements sample) ->
  (exists sample, sample ∈ df /\ Elements sample = ["Ag"%string]) ->
  (exists sample, sample ∈ df /\ Elements sample = ["Ag"%string; "Si"%string]) ->
  (forall i sample, i < n_train -> df !! i = Some sample ->
                    "Ag"%string ∈ Elements sample) ->
  exists st',
    notebook_preprocess colab_auth read_pickle rejects_ragged st = (Raise ValueError, st').
Proof.
  intros Hread Hall Hnone Hpure Hbin Hfirst.
  assert (Hne : df <> []).
  { destruct Hnone as (s & Hin & _). intros ->. inversion Hin. }
  destruct (plot_conditions_ok df (conditions df) (rk_seed 0)
              (conditions_nonempty df Hnone Hpure Hbin) (conditions_in_range df))
    as (curves & st2 & Hplot & _).
  exists st2. unfold notebook_preprocess.
  erewrite cbind_ok by reflexivity.
  erewrite cbind_ok by (unfold pure; rewrite data_path_cases; reflexivity).
  erewrite cbind_ok
    by (unfold pure; rewrite (read_data_nonempty _ _ df Hread Hne); reflexivity).
  erewrite cbind_ok by exact Hplot.
  erewrite cbind_ok
    by (unfold pure; rewrite (extract_uniform _ _ m Hall); reflexivity).
  simpl fst. simpl snd.
  assert (Hlabels : forall j y, train_y_of df !! j = Some y -> y = 1%Z).
  { intros j y. rewrite train_y_of_labels. intros Hy.
    assert (Hj : j < n_train).
    { apply lookup_lt_Some in Hy. rewrite length_take in Hy. lia. }
    rewrite lookup_take_lt, map_lookup in Hy by exact Hj.
    destruct (df !! j) as [sample|] eqn:Hs; [|discriminate].
    simpl in Hy. injection Hy as <-. unfold label_of.
    case_decide; [reflexivity|]. exfalso. eauto. }
  apply balance_classes_raises.
  - apply id_no_Ag_empty. intros Hin. apply list_elem_of_lookup in Hin as [j Hj].
    apply Hlabels in Hj. discriminate.
  - intros Hnil. apply id_with_Ag_empty in Hnil. apply Hnil.
    apply list_elem_of_lookup. exists 0.
    destruct df as [|s0 df']; [congruence|].
    rewrite train_y_of_labels, lookup_take_lt by apply n_train_pos.
    simpl. f_equal. unfold label_of.
    destruct (decide ("Ag"%string ∈ Elements s0)) as [_|Hnot]; [reflexivity|].
    exfalso. apply Hnot, (Hfirst 0 s0 n_train_pos eq_refl).
Qed.

(** ** Instances of the further properties *)

Lemma balance_classes_returns_iff_witness :
  length demo_train_x = length demo_train_y /\
  (0%Z ∈ demo_train_y \/ 1%Z ∉ demo_train_y ->
     exists b st', balance_classes demo_train_x demo_train_y 7%Z = (Ok b, st')) /\
  (0%Z ∉ demo_train_y -> 1%Z ∈ demo_train_y ->
     balance_classes demo_train_x demo_train_y 7%Z = (Raise ValueError, 7%Z)).
Proof.
  split; [reflexivity|].
  apply (balance_classes_returns_iff demo_train_x demo_train_y 7%Z). reflexivity.
Defined.

Lemma balanced_size_and_labels_witness :
  length demo_train_x = length demo_train_y /\
  0%Z ∈ demo_train_y /\
  exists b st',
    balance_classes demo_train_x demo_train_y 7%Z = (Ok b, st') /\
    length (train_y_balanced b) = 2 * count_occ Z.eq_dec demo_train_y 1%Z /\
    length (train_x_balanced b) = length (train_y_balanced b) /\
    Forall (fun y => y = 0%Z \/ y = 1%Z) (train_y_balanced b).
Proof.
  split; [reflexivity|]. split; [compute_done|].
  apply (balanced_size_and_labels demo_train_x demo_train_y 7%Z);
    [reflexivity | compute_done].
Defined.

Lemma minority_kept_exactly_once_witness :
  length demo_train_x = length demo_train_y /\
  0%Z ∈ demo_train_y /\
  exists b st',
    balance_classes demo_train_x demo_train_y 7%Z = (Ok b, st') /\
    forall j, demo_train_y !! j = Some 1%Z ->
      count_occ Nat.eq_dec (id_downsample b) j = 1.
Proof.
  split; [reflexivity|]. split; [compute_done|].
  apply (minority_kept_exactly_once demo_train_x demo_train_y 7%Z);
    [reflexivity | compute_done].
Defined.

Lemma scarce_majority_is_repeated_witness :
  length demo_train_x = length scarce_train_y /\
  0%Z ∈ scarce_train_y /\
  count_occ Z.eq_dec scarce_train_y 0%Z < count_occ Z.eq_dec scarce_train_y 1%Z /\
  exists b st',
    balance_classes demo_train_x scarce_train_y 0%Z = (Ok b, st') /\
    ~ NoDup (id_no_Ag_downsample b).
Proof.
  split; [reflexivity|]. split; [compute_done|]. split; [compute_done|].
  apply (scarce_majority_is_repeated demo_train_x scarce_train_y 0%Z);
    [reflexivity | compute_done | compute_done].
Defined.

Lemma long_ragged_df_first :
  long_ragged_df !! 0 = Some (mkSample ["Ag"]%string (replicate 1000 1%float)).
Proof.
  unfold long_ragged_df, full_df. rewrite lookup_app_l.
  - apply lookup_replicate_2, n_train_pos.
  - rewrite length_replicate. apply n_train_pos.
Qed.

Lemma long_ragged_df_last :
  long_ragged_df !! n_train = Some (mkSample ["Si"]%string [1; 2]%float).
Proof.
  unfold long_ragged_df, full_df. apply list_lookup_middle.
  rewrite length_replicate. reflexivity.
Qed.

(** The ragged row sits at position 50000, beyond the slice. *)
Lemma ragged_row_anywhere_witness :
  long_ragged_df !! 0 = Some (mkSample ["Ag"]%string (replicate 1000 1%float)) /\
  long_ragged_df !! n_train = Some (mkSample ["Si"]%string [1; 2]%float) /\
  extract_training_data true long_ragged_df = Raise ValueError.
Proof.
  split; [exact long_ragged_df_first|]. split; [exact long_ragged_df_last|].
  apply (ragged_row_anywhere true long_ragged_df
           (mkSample ["Ag"]%string (replicate 1000 1%float))
           (mkSample ["Si"]%string [1; 2]%float) n_train);
    [exact long_ragged_df_first | exact long_ragged_df_last | discriminate].
Defined.

Lemma long_df_lengths : Forall (fun sample => length (Spectra sample) = 1000) long_df.
Proof.
  unfold long_df. apply Forall_app. split; [exact full_df_lengths|].
  repeat constructor.
Qed.

Lemma long_df_first_rows : take n_train long_df = take n_train full_df.
Proof.
  unfold long_df. apply take_app_le. unfold full_df.
  rewrite length_replicate. apply Nat.le_refl.
Qed.

Lemma rows_beyond_limit_ignored_witness :
  Forall (fun sample => length (Spectra sample) = 1000) long_df /\
  Forall (fun sample => length (Spectra sample) = 1000) full_df /\
  take n_train long_df = take n_train full_df /\
  extract_training_data true long_df = extract_training_data true full_df.
Proof.
  split; [exact long_df_lengths|]. split; [exact full_df_lengths|].
  split; [exact long_df_first_rows|].
  apply (rows_beyond_limit_ignored true long_df full_df 1000 1000);
    [exact long_df_lengths | exact full_df_lengths | exact long_df_first_rows].
Defined.

Lemma demo_df_no_Ag :
  exists sample, sample ∈ demo_df /\ "Ag"%string ∉ Elements sample.
Proof.
  exists (mkSample ["Cu"]%string (replicate 1000 40%float)).
  split; [apply list_elem_of_lookup; exists 2; reflexivity | compute_done].
Qed.

Lemma demo_df_pure_Ag :
  exists sample, sample ∈ demo_df /\ Elements sample = ["Ag"%string].
Proof.
  exists (mkSample ["Ag"]%string (replicate 1000 3%float)).
  split; [apply list_elem_of_lookup; exists 1; reflexivity | reflexivity].
Qed.

Lemma demo_df_Ag_Si :
  exists sample, sample ∈ demo_df /\ Elements sample = ["Ag"%string; "Si"%string].
Proof.
  exists (mkSample ["Ag"; "Si"]%string (replicate 1000 0.5%float)).
  split; [apply list_elem_of_lookup; exists 4; reflexivity | reflexivity].
Qed.

Lemma plot_cell_curves_witness :
  exists curves st',
    plot_conditions demo_df (conditions demo_df) 1%Z = (Ok curves, st') /\
    length curves = 12 /\
    Forall (fun curve : string * nat * list float =>
              length curve.2 <= 150 /\
              exists sample,
                demo_df !! curve.1.2 = Some sample /\
                curve.2 = take 150 (Spectra sample) /\
                meets curve.1.1 sample) curves.
Proof.
  apply (plot_cell_curves demo_df 1%Z);
    [exact demo_df_no_Ag | exact demo_df_pure_Ag | exact demo_df_Ag_Si].
Defined.

Lemma short_df_no_Ag_Si :
  forall sample, sample ∈ short_df -> Elements sample <> ["Ag"%string; "Si"%string].
Proof.
  intros sample Hin. unfold short_df in Hin.
  repeat (apply elem_of_cons in Hin as [-> | Hin]); try discriminate.
  inversion Hin.
Qed.

Lemma plot_cell_raises_witness :
  exists st', plot_conditions short_df (conditions short_df) 1%Z = (Raise ValueError, st').
Proof.
  apply (plot_cell_raises short_df 1%Z). right; right. exact short_df_no_Ag_Si.
Defined.

Lemma notebook_preprocess_pairs_table_witness :
  exists b st',
    notebook_preprocess (Raise ImportError) (local_files demo_df) true 1%Z = (Ok b, st') /\
    length (train_x_balanced b) = length (id_downsample b) /\
    length (train_y_balanced b) = length (id_downsample b) /\
    forall i j, id_downsample b !! i = Some j ->
      j < n_train /\
      exists sample,
        demo_df !! j = Some sample /\
        train_x_balanced b !! i = Some (Spectra sample) /\
        train_y_balanced b !! i = Some (label_of sample).
Proof.
  apply (notebook_preprocess_pairs_table (Raise ImportError) (local_files demo_df)
           true 1%Z demo_df 1000).
  - reflexivity.
  - repeat constructor.
  - exact demo_df_pure_Ag.
  - exact demo_df_Ag_Si.
  - exists 0, (mkSample ["Si"; "Fe"]%string (replicate 1000 12.5%float)).
    split; [apply n_train_pos|]. split; [reflexivity | compute_done].
Defined.

Lemma notebook_stops_at_plots_witness :
  exists st',
    notebook_preprocess (Raise ImportError) (local_files short_df) true 1%Z
      = (Raise ValueError, st').
Proof.
  apply (notebook_stops_at_plots (Raise ImportError) (local_files short_df)
           true 1%Z short_df).
  - reflexivity.
  - discriminate.
  - right; right. exact short_df_no_Ag_Si.
Defined.

Lemma long_df_member (sample : Sample) : sample ∈ demo_df -> sample ∈ long_df.
Proof. intros Hin. unfold long_df. apply elem_of_app. right. exact Hin. Qed.

Lemma long_df_first_rows_Ag (i : nat) (sample : Sample) :
  i < n_train -> long_df !! i = Some sample -> "Ag"%string ∈ Elements sample.
Proof.
  intros Hi. unfold long_df, full_df.
  rewrite lookup_app_l by (rewrite length_replicate; exact Hi).
  rewrite lookup_replicate_2 by exact Hi. intros [= <-]. simpl. left.
Qed.

(** The first 50000 rows all hold Ag; the rows without Ag come later. *)
Lemma notebook_first_rows_all_Ag_witness :
  (forall i sample, i < n_train -> long_df !! i = Some sample ->
                    "Ag"%string ∈ Elements sample) /\
  (exists sample, sample ∈ long_df /\ "Ag"%string ∉ Elements sample) /\
  exists st',
    notebook_preprocess (Raise ImportError) (local_files long_df) true 1%Z
      = (Raise ValueError, st').
Proof.
  assert (Hnone : exists sample, sample ∈ long_df /\ "Ag"%string ∉ Elements sample).
  { destruct demo_df_no_Ag as (s & Hin & Hs). exists s. split; [apply long_df_member, Hin | exact Hs]. }
  split; [exact long_df_first_rows_Ag|]. split; [exact Hnone|].
  apply (notebook_first_rows_all_Ag (Raise ImportError) (local_files long_df)
           true 1%Z long_df 1000).
  - reflexivity.
  - exact long_df_lengths.
  - exact Hnone.
  - destruct demo_df_pure_Ag as (s & Hin & Hs). exists s.
    split; [apply long_df_member, Hin | exact Hs].
  - destruct demo_df_Ag_Si as (s & Hin & Hs). exists s.
    split; [apply long_df_member, Hin | exact Hs].
  - exact long_df_first_rows_Ag.
Defined.
